(** * Document-QA-System: a shallow embedding of the ingestion-to-retrieval
    pipeline and of its HTTP front end, with the properties of its
    specification.

    Python [str] values are modelled as [string]: a sequence of code points
    below 256, one [ascii] per code point.  Exceptions are values of [Exn];
    code that can raise returns a [Result].  The mutable vector store and
    the calls made to the remote models are threaded through a state
    monad. *)

From Stdlib Require Import String Ascii List Arith Bool Lia.
From stdpp Require Import gmap strings list pretty.
Import ListNotations.

Local Open Scope string_scope.
Local Open Scope nat_scope.
Local Open Scope list_scope.

(** ** Python string primitives used by the sources *)

Module PyStr.

(** [len(s)] *)
Definition len (s : string) : nat := String.length s.

(** [str.isspace] on one code point below 256: TAB..CR, FS..US, SPACE,
    NEL and NBSP. *)
Definition isspace (c : ascii) : bool :=
  let n := nat_of_ascii c in
  ((9 <=? n) && (n <=? 13)) || ((28 <=? n) && (n <=? 31))
  || (n =? 32) || (n =? 133) || (n =? 160).

Fixpoint lstrip (s : string) : string :=
  match s with
  | EmptyString => EmptyString
  | String c s' => if isspace c then lstrip s' else s
  end.

Fixpoint rstrip (s : string) : string :=
  match s with
  | EmptyString => EmptyString
  | String c s' =>
      match rstrip s' with
      | EmptyString => if isspace c then EmptyString else String c EmptyString
      | r => String c r
      end
  end.

(** [s.strip()] *)
Definition strip (s : string) : string := rstrip (lstrip s).

(** The truth value of a string: [bool(s)], false exactly on [""]. *)
Definition truthy (s : string) : bool :=
  match s with EmptyString => false | _ => true end.

(** Some character of [s] is not whitespace. *)
Fixpoint inked (s : string) : bool :=
  match s with
  | EmptyString => false
  | String c s' => negb (isspace c) || inked s'
  end.

(** No character of [s] is whitespace:
    [not any(c.isspace() for c in s)]. *)
Fixpoint spaceless (s : string) : bool :=
  match s with
  | EmptyString => true
  | String c s' => negb (isspace c) && spaceless s'
  end.

(** [not s or not s.strip()] *)
Definition blank (s : string) : bool :=
  negb (truthy s) || negb (truthy (strip s)).

(** [c.lower()] on one code point below 256: A..Z and the Latin-1
    capitals (all of 192..222 but the multiplication sign 215). *)
Definition lower_char (c : ascii) : ascii :=
  let n := nat_of_ascii c in
  if ((65 <=? n) && (n <=? 90))
     || ((192 <=? n) && (n <=? 222) && negb (n =? 215))
  then ascii_of_nat (n + 32) else c.

Fixpoint lower (s : string) : string :=
  match s with
  | EmptyString => EmptyString
  | String c s' => String (lower_char c) (lower s')
  end.

(** [s[:n]] *)
Fixpoint take (n : nat) (s : string) : string :=
  match n, s with
  | S k, String c s' => String c (take k s')
  | _, _ => EmptyString
  end.

(** [s[n:]] *)
Fixpoint drop (n : nat) (s : string) : string :=
  match n, s with
  | S k, String _ s' => drop k s'
  | _, _ => s
  end.

(** [s.startswith(p)] *)
Fixpoint startswith (p s : string) : bool :=
  match p, s with
  | EmptyString, _ => true
  | String a p', String b s' => if ascii_dec a b then startswith p' s' else false
  | String _ _, EmptyString => false
  end.

(** [p in s]; also [re.search(re.escape(p), s)] seen as a truth value. *)
Fixpoint contains (p s : string) : bool :=
  startswith p s ||
  match s with
  | EmptyString => false
  | String _ s' => contains p s'
  end.

(** [sep.join(l)] *)
Fixpoint join (sep : string) (l : list string) : string :=
  match l with
  | [] => EmptyString
  | [x] => x
  | x :: rest => x +:+ sep +:+ join sep rest
  end.

(** [list(s)]: the one-character strings of [s]. *)
Fixpoint chars (s : string) : list string :=
  match s with
  | EmptyString => []
  | String c s' => String c EmptyString :: chars s'
  end.

(** The segments of [s] between the occurrences of the non-empty literal
    [sep], found from left to right without overlap (what [re.split]
    yields apart from the captured separators).  [skip] counts the
    characters of a separator just matched that are still to be passed
    over. *)
Fixpoint segments_go (sep : string) (skip : nat) (s : string) : list string :=
  match s with
  | EmptyString => [EmptyString]
  | String c s' =>
      match skip with
      | S k => segments_go sep k s'
      | O =>
          if startswith sep s
          then EmptyString :: segments_go sep (len sep - 1) s'
          else match segments_go sep 0 s' with
               | seg :: rest => String c seg :: rest
               | [] => [String c EmptyString]
               end
      end
  end.

Definition segments (sep s : string) : list string := segments_go sep 0 s.

(** [s.rfind(".")], as an option. *)
Fixpoint rfind_dot (s : string) : option nat :=
  match s with
  | EmptyString => None
  | String c s' =>
      match rfind_dot s' with
      | Some i => Some (S i)
      | None => if ascii_dec c "."%char then Some 0 else None
      end
  end.

End PyStr.

(** ** [pathlib]: the suffix of a path (POSIX flavour, Python up to 3.13) *)

Module PathLib.

(** The components of a path: the segments between slashes, the empty
    ones and the single dots dropped. *)
Definition parts (p : string) : list string :=
  filter (fun c => c <> "" /\ c <> ".") (PyStr.segments "/" p).

(** [Path(p).name] *)
Definition name (p : string) : string := List.last (parts p) "".

(** [Path(p).suffix] *)
Definition suffix (p : string) : string :=
  let n := name p in
  match PyStr.rfind_dot n with
  | Some i => if (0 <? i) && (i <? PyStr.len n - 1) then PyStr.drop i n else ""
  | None => ""
  end.

End PathLib.

(** ** Documents, exceptions and results *)

(** [langchain_core.documents.Document] *)
Record Document := mkDocument {
  page_content : string;
  metadata : gmap string string
}.

(** The exceptions the program raises or lets through.  [Exception] stands
    for every error raised by an external collaborator (model end point,
    file parser) and for the plain [Exception(...)] of the sources. *)
Inductive Exn :=
| HTTPException (status_code : nat) (detail : string)
| ValueError (msg : string)
| IndexError (msg : string)
| Exception (msg : string).

(** [str(e)].  Starlette prints an [HTTPException] as its status code, a
    colon and the detail. *)
Definition exn_str (e : Exn) : string :=
  match e with
  | HTTPException st d => pretty st +:+ ": " +:+ d
  | ValueError m | IndexError m | Exception m => m
  end.

Inductive Result (A : Type) :=
| Ok (a : A)
| Raise (e : Exn).
Arguments Ok {A} a.
Arguments Raise {A} e.

Definition is_ok {A} (r : Result A) : bool :=
  match r with Ok _ => true | Raise _ => false end.

(** ** External collaborators

    The embedding end point, the distance of the vector index, the chat
    model behind the prompt chain and the file parsers are not part of the
    repository: the program is embedded over any implementation of them. *)
Class Backend := {
  Embedding : Type;
  (** [HuggingFaceEndpointEmbeddings.embed_documents] *)
  embed_documents : list string -> Result (list Embedding);
  (** [HuggingFaceEndpointEmbeddings.embed_query] *)
  embed_query : string -> Result Embedding;
  (** [nearer q a b]: [a] is at most as far from the query [q] as [b]. *)
  nearer : Embedding -> Embedding -> Embedding -> bool;
  (** [(prompt | llm | StrOutputParser()).invoke] on a context and a question *)
  chain_invoke : string -> string -> Result string;
  (** [get_llm()] followed by [build_rag_chain(llm)] *)
  build_chain : Result unit;
  (** [PyPDFLoader(p).load()], [Docx2txtLoader(p).load()], [TextLoader(p).load()] *)
  pdf_loader : string -> Result (list Document);
  docx_loader : string -> Result (list Document);
  text_loader : string -> Result (list Document);
  (** [WebBaseLoader(url).load()] *)
  web_loader : string -> Result (list Document);
  (** the text that [open(...).read()], [PdfReader] and [docx.Document]
      extract from the bytes of an uploaded file *)
  txt_text : string -> Result string;
  pdf_text : string -> Result string;
  docx_text : string -> Result string;
  (** the save of an upload: [open(os.path.join(temp_dir, name), 'wb')] in
      the fresh temporary directory and the write of the bytes read from
      the upload; it raises, for one, when the name has a directory part,
      as no such directory is there *)
  save_upload : string -> string -> Result unit
}.

(** ** State: the vector index and the trace of remote calls *)

Inductive Call :=
| EmbedDocuments (texts : list string)
| EmbedQuery (query : string)
| ChainInvoke (context question : string).

Section WithBackend.
Context {B : Backend}.

(** The FAISS index with its document store: the stored vectors with
    their documents, in insertion order. *)
Definition Index : Type := list (Embedding * Document).

Record World := mkWorld {
  vector_store : Index;
  calls : list Call
}.

(** Computations that read and write the world and may raise; what was
    written before an exception stays written. *)
Definition M (A : Type) : Type := World -> Result A * World.

Definition ret {A} (a : A) : M A := fun w => (Ok a, w).

Definition bind {A C} (m : M A) (k : A -> M C) : M C :=
  fun w => match m w with
           | (Ok a, w') => k a w'
           | (Raise e, w') => (Raise e, w')
           end.

Definition raise {A} (e : Exn) : M A := fun w => (Raise e, w).

(** [try: m  except Exception as e: h e] *)
Definition try_except {A} (m : M A) (h : Exn -> M A) : M A :=
  fun w => match m w with
           | (Ok a, w') => (Ok a, w')
           | (Raise e, w') => h e w'
           end.

(** The world after the calls [cs] have been made. *)
Definition logged (w : World) (cs : list Call) : World :=
  mkWorld (vector_store w) (calls w ++ cs).

(** A call to a collaborator: recorded, then answered. *)
Definition call {A} (c : Call) (r : Result A) : M A :=
  fun w => (r, logged w [c]).

Definition get_store : M Index := fun w => (Ok (vector_store w), w).

Definition set_store (i : Index) : M unit :=
  fun w => (Ok tt, mkWorld i (calls w)).

End WithBackend.

Declare Scope py_scope.
Delimit Scope py_scope with py.
Notation "x <- c ;; k" := (bind c (fun x => k))
  (at level 100, c at next level, right associativity) : py_scope.
Notation "c ;;; k" := (bind c (fun _ => k))
  (at level 100, right associativity) : py_scope.

(** ** [langchain_text_splitters.RecursiveCharacterTextSplitter]

    The splitter is built in both modules with [chunk_size], [chunk_overlap]
    and [separators] only, so its other settings are the defaults of the
    class: separators are literal and kept at the start of the piece that
    follows them, chunks are stripped of surrounding whitespace and lengths
    are counted by [len]. *)

Module TextSplitter.

Record Splitter := mkSplitter {
  chunk_size : nat;
  chunk_overlap : nat;
  separators : list string
}.

(** [_split_text_with_regex(text, separator, keep_separator=True)]: the
    pieces of [text], each separator leading the piece after it; the
    empty separator cuts between all characters.  Empty pieces are
    dropped. *)
Definition split_text_with_regex (text separator : string) : list string :=
  let splits :=
    if PyStr.truthy separator then
      match PyStr.segments separator text with
      | first :: others => first :: map (fun s => separator +:+ s) others
      | [] => []
      end
    else PyStr.chars text in
  filter (fun s => s <> "") splits.

(** [_join_docs(docs, separator)]: the joined and stripped text, [None]
    when nothing is left. *)
Definition join_docs (docs : list string) (separator : string) : option string :=
  let text := PyStr.strip (PyStr.join separator docs) in
  if PyStr.truthy text then Some text else None.

Section Merge.
Variable cfg : Splitter.
Variable separator : string.

Let separator_len := PyStr.len separator.

(** The guard of the addition of a piece of length [_len] to the open
    chunk: [total + _len + (separator_len if len(current_doc) > 0 else 0)
    > chunk_size]. *)
Definition overflows (current_doc : list string) (total _len : nat) : bool :=
  chunk_size cfg <?
    total + _len + (if 0 <? length current_doc then separator_len else 0).

(** The inner [while] of [_merge_splits]: pieces leave the front of the
    open chunk as long as more than [chunk_overlap] characters are held,
    or the coming piece does not fit yet.  Each turn removes
    [current_doc[0]], hence the recursion on [current_doc]; the guard
    cannot hold on an empty chunk, whose total is zero. *)
Fixpoint pop_front (_len : nat) (current_doc : list string) (total : nat)
  : list string * nat :=
  match current_doc with
  | [] => ([], total)
  | first :: rest =>
      if (chunk_overlap cfg <? total)
         || (overflows current_doc total _len && (0 <? total))
      then pop_front _len rest
             (total - (PyStr.len first
                       + (if 1 <? length current_doc then separator_len else 0)))
      else (current_doc, total)
  end.

(** The [for d in splits] loop of [_merge_splits], with its three
    variables [docs], [current_doc] and [total]. *)
Fixpoint merge_loop (splits docs current_doc : list string) (total : nat)
  : list string :=
  match splits with
  | [] => docs ++ option_list (join_docs current_doc separator)
  | d :: splits' =>
      let _len := PyStr.len d in
      let '(docs1, current1, total1) :=
        if overflows current_doc total _len then
          if 0 <? length current_doc then
            let '(cur, tot) := pop_front _len current_doc total in
            (docs ++ option_list (join_docs current_doc separator), cur, tot)
          else (docs, current_doc, total)
        else (docs, current_doc, total) in
      let current2 := current1 ++ [d] in
      merge_loop splits' docs1 current2
        (total1 + (_len + (if 1 <? length current2 then separator_len else 0)))
  end.

(** The open chunks that [merge_loop] closes, in order: the value of
    [current_doc] at every [docs.append], the one after the loop
    included.  [merge_loop] returns their joined texts, the empty ones
    left out. *)
Fixpoint windows (splits current_doc : list string) (total : nat)
  : list (list string) :=
  match splits with
  | [] => [current_doc]
  | d :: splits' =>
      let _len := PyStr.len d in
      let '(closed, current1, total1) :=
        if overflows current_doc total _len then
          if 0 <? length current_doc then
            let '(cur, tot) := pop_front _len current_doc total in
            ([current_doc], cur, tot)
          else ([], current_doc, total)
        else ([], current_doc, total) in
      let current2 := current1 ++ [d] in
      closed ++ windows splits' current2
        (total1 + (_len + (if 1 <? length current2 then separator_len else 0)))
  end.

(** [_merge_splits(splits, separator)] *)
Definition merge_splits (splits : list string) : list string :=
  merge_loop splits [] [] 0.

End Merge.

(** The choice of the separator at the head of [_split_text]: the first
    one of the list that is empty or occurs in the text, with the
    separators after it kept for the pieces that are still too long; the
    last one of the list and nothing to recurse on when none occurs. *)
Fixpoint pick_from (separators : list string) (text : string)
  : option (string * list string) :=
  match separators with
  | [] => None
  | _s :: rest =>
      if negb (PyStr.truthy _s) then Some (_s, [])
      else if PyStr.contains _s text then Some (_s, rest)
      else pick_from rest text
  end.

Definition pick_separator (separators : list string) (text : string)
  : string * list string :=
  match pick_from separators text with
  | Some r => r
  | None => (List.last separators "", [])
  end.

Section Split.
Variable cfg : Splitter.

(** The [for s in splits] loop of [_split_text]: short pieces gather in
    [_good_splits] and are merged; a long piece closes the gathering
    and is handed to [deeper] (split again with the finer separators,
    or kept whole when none is left). *)
Fixpoint split_loop (_separator : string) (deeper : string -> list string)
  (splits final_chunks _good_splits : list string) : list string :=
  match splits with
  | [] =>
      match _good_splits with
      | [] => final_chunks
      | _ => final_chunks ++ merge_splits cfg _separator _good_splits
      end
  | s :: splits' =>
      if PyStr.len s <? chunk_size cfg
      then split_loop _separator deeper splits' final_chunks (_good_splits ++ [s])
      else
        let final1 :=
          match _good_splits with
          | [] => final_chunks
          | _ => final_chunks ++ merge_splits cfg _separator _good_splits
          end in
        split_loop _separator deeper splits' (final1 ++ deeper s) []
  end.

(** [_split_text(text, separators)].  Every recursive call is on a
    strictly shorter list of separators; [fuel] bounds their number. *)
Fixpoint _split_text (fuel : nat) (text : string) (separators : list string)
  : list string :=
  match fuel with
  | O => []
  | S fuel' =>
      let '(separator, new_separators) := pick_separator separators text in
      let splits := split_text_with_regex text separator in
      let deeper :=
        match new_separators with
        | [] => fun s => [s]
        | _ => fun s => _split_text fuel' s new_separators
        end in
      (* keep_separator: the pieces are merged with the empty string *)
      split_loop "" deeper splits [] []
  end.

(** [split_text(text)] *)
Definition split_text (text : string) : list string :=
  _split_text (S (length (separators cfg))) text (separators cfg).

(** [split_documents(documents)]: every chunk of a document carries a
    copy of the metadata of that document. *)
Definition split_documents (documents : list Document) : list Document :=
  flat_map (fun doc =>
              map (fun chunk => mkDocument chunk (metadata doc))
                  (split_text (page_content doc)))
           documents.

End Split.

End TextSplitter.

(** The line feed, [\n] in the sources. *)
Definition nl : string := String "010"%char EmptyString.

(** [d.get(key, default)] *)
Definition dict_get (d : gmap string string) (key default : string) : string :=
  match d !! key with
  | Some v => v
  | None => default
  end.

Section Program.
Context {B : Backend}.
Local Open Scope py_scope.

(** ** ingestion/loader.py *)

Inductive LoaderObject :=
| PyPDFLoader (file_path : string)
| Docx2txtLoader (file_path : string)
| TextLoader (file_path : string)
| WebBaseLoader (url : string).

(** [loader.load()] *)
Definition loader_load (loader : LoaderObject) : Result (list Document) :=
  match loader with
  | PyPDFLoader p => pdf_loader p
  | Docx2txtLoader p => docx_loader p
  | TextLoader p => text_loader p
  | WebBaseLoader u => web_loader u
  end.

(** The [if]/[elif] chain of [DocumentLoader.load_file]. *)
Definition select_loader (file_path : string) : Result LoaderObject :=
  let ext := PyStr.lower (PathLib.suffix file_path) in
  if decide (ext = ".pdf") then Ok (PyPDFLoader file_path)
  else if decide (ext = ".docx") then Ok (Docx2txtLoader file_path)
  else if decide (ext = ".txt") then Ok (TextLoader file_path)
  else Raise (ValueError "unsupported file format").

(** [DocumentLoader.load_file] *)
Definition load_file (file_path : string) : Result (list Document) :=
  match select_loader file_path with
  | Ok loader => loader_load loader
  | Raise e => Raise e
  end.

(** [DocumentLoader.load_url] *)
Definition load_url (url : string) : Result (list Document) :=
  loader_load (WebBaseLoader url).

(** ** ingestion/chunker.py *)

(** [splitter] *)
Definition splitter : TextSplitter.Splitter :=
  TextSplitter.mkSplitter 810 150 [nl +:+ nl; nl; "."; " "; ""].

Definition chunker_path : string :=
  "C:\Users\uoy\Desktop\Document QA System\test doc.docx".

(** The module body: the document at [path] is loaded, and the list of
    split documents is left empty (the call of the splitter is commented
    out). *)
Definition splitted_docs : Result (list Document) :=
  match load_file chunker_path with
  | Ok docs => Ok []
  | Raise e => Raise e
  end.

(** ** [langchain_community.vectorstores.FAISS] over the flat L2 index *)

(** [FAISS.from_documents(documents, embedding)]: the texts are embedded
    in one call; the dimension of the index is read off the first vector,
    which an empty list does not have. *)
Definition from_documents (documents : list Document) : Result Index :=
  match embed_documents (map page_content documents) with
  | Raise e => Raise e
  | Ok [] => Raise (IndexError "list index out of range")
  | Ok embeddings =>
      if length documents =? length embeddings
      then Ok (combine embeddings documents)
      else Raise (ValueError "documents and embeddings expected to be equal length")
  end.

(** [vectorstore.add_documents(documents)]: the new entries go behind the
    stored ones. *)
Definition add_documents (documents : list Document) : M unit :=
  let texts := map page_content documents in
  embeddings <- call (EmbedDocuments texts) (embed_documents texts) ;;
  if length documents =? length embeddings
  then index <- get_store ;;
       set_store (index ++ combine embeddings documents)
  else raise (ValueError "documents and embeddings expected to be equal length").

(** The entries from the nearest to the farthest of the query, the
    earlier inserted first among equally distant ones. *)
Fixpoint insert_ranked (q : Embedding) (x : Embedding * Document)
  (ranked : list (Embedding * Document)) : list (Embedding * Document) :=
  match ranked with
  | [] => [x]
  | y :: ranked' =>
      if nearer q (fst x) (fst y) then x :: ranked
      else y :: insert_ranked q x ranked'
  end.

Fixpoint rank (q : Embedding) (index : Index) : list (Embedding * Document) :=
  match index with
  | [] => []
  | x :: index' => insert_ranked q x (rank q index')
  end.

(** [similarity_search_by_vector(embedding, k)] *)
Definition similarity_search_by_vector (index : Index) (q : Embedding) (k : nat)
  : list Document :=
  map snd (firstn k (rank q index)).

(** [similarity_search(query, k)] *)
Definition similarity_search (query : string) (k : nat) : M (list Document) :=
  q <- call (EmbedQuery query) (embed_query query) ;;
  index <- get_store ;;
  ret (similarity_search_by_vector index q k).

(** ** vectorstore/store.py *)

(** [dummy_doc] *)
Definition dummy_doc : Document :=
  mkDocument "Placeholder" {[ "source" := "system" ]}.

(** [vector_store = FAISS.from_documents([dummy_doc], embddings)], after
    the import of the chunker module has run. *)
Definition store_module : Result Index :=
  match splitted_docs with
  | Ok docs => from_documents [dummy_doc]
  | Raise e => Raise e
  end.

(** ** retrievers/base.py *)

(** Modelled from the spec: the retriever object that [get_retriver]
    returns, whose module is not among the sources.  By section 4.5 it
    holds the fixed result count [k]. *)
Record Retriever := mkRetriever { top_k : nat }.

(** Modelled from the spec: [get_retriver], whose module is not among the
    sources.  By section 4.5 the Retriever wraps the Index with a fixed
    result count [k]; the caller unpacks it together with the vector
    store, which is the index held by the world. *)
Definition get_retriver (k : nat) : Retriever := mkRetriever k.

(** Modelled from the spec: [retriever.invoke(question)], which by
    section 4.5 embeds the question and delegates to the query of the
    Index with the configured [k]. *)
Definition retriever_invoke (r : Retriever) (question : string) : M (list Document) :=
  similarity_search question (top_k r).

(** ** chains/rag_chain.py *)

(** The block of one document in [format_docs]. *)
Definition format_doc (d : Document) : string :=
  "Source: " +:+ dict_get (metadata d) "source" "" +:+ nl +:+ " " +:+ page_content d.

(** [format_docs] *)
Definition format_docs (docs : list Document) : string :=
  PyStr.join (nl +:+ nl) (map format_doc docs).

(** ** services/qa_service.py *)

Record QAService := mkQAService {
  retriever : Retriever;
  text_splitter : TextSplitter.Splitter
}.

(** [QAService.__init__] *)
Definition QAService_init : Result QAService :=
  match build_chain with
  | Ok _ =>
      Ok (mkQAService (get_retriver 4)
            (TextSplitter.mkSplitter 810 150 [nl +:+ nl; nl; "."; " "; ""]))
  | Raise e => Raise e
  end.

(** [QAService.ask] *)
Definition ask (self : QAService) (question : string) : M (string * list Document) :=
  docs <- retriever_invoke (retriever self) question ;;
  let context := format_docs docs in
  result <- call (ChainInvoke context question) (chain_invoke context question) ;;
  ret (result, docs).

(** [QAService.add_document] *)
Definition add_document (self : QAService) (text_content : string)
  (meta : gmap string string) : M nat :=
  let doc := mkDocument text_content meta in
  let chunks := TextSplitter.split_documents (text_splitter self) [doc] in
  add_documents chunks ;;;
  ret (length chunks).

(** ** api_fastapi.py *)

Record QuestionRequest := mkQuestionRequest { question : string }.

Record Source := mkSource { source : string; content : string }.

Record AnswerResponse := mkAnswerResponse {
  answer : string;
  sources : list Source;
  response_question : string
}.

(** An uploaded file: its name and its bytes. *)
Record UploadFile := mkUploadFile { filename : string; file_bytes : string }.

(** The body of a successful upload; the key [warnings] is present only
    when there are errors to report. *)
Record UploadResponse := mkUploadResponse {
  message : string;
  files_processed : nat;
  filenames : list string;
  warnings : option (list string)
}.

(** [extract_text_from_txt] *)
Definition extract_text_from_txt (data : string) : Result string := txt_text data.

(** [extract_text_from_pdf] *)
Definition extract_text_from_pdf (data : string) : Result string :=
  match pdf_text data with
  | Ok text => Ok text
  | Raise e => Raise (Exception ("Error reading PDF: " +:+ exn_str e))
  end.

(** [extract_text_from_docx] *)
Definition extract_text_from_docx (data : string) : Result string :=
  match docx_text data with
  | Ok text => Ok text
  | Raise e => Raise (Exception ("Error reading DOCX: " +:+ exn_str e))
  end.

(** [process_uploaded_file]; the temporary file holds the bytes of the
    upload. *)
Definition process_uploaded_file (data file_name : string) : Result string :=
  let ext := PyStr.lower (PathLib.suffix file_name) in
  if decide (ext = ".txt") then extract_text_from_txt data
  else if decide (ext = ".pdf") then extract_text_from_pdf data
  else if decide (ext ∈ [".docx"; ".doc"]) then extract_text_from_docx data
  else Raise (ValueError ("Unsupported file type: " +:+ ext)).

(** [text[:200] + "..." if len(text) > 200 else text], the content of a
    source in [ask_question]. *)
Definition excerpt (text : string) : string :=
  if 200 <? PyStr.len text then PyStr.take 200 text +:+ "..." else text.

(** [source_info], built for every retrieved document in [ask_question]. *)
Definition source_info (doc : Document) : Source :=
  mkSource (dict_get (metadata doc) "source" "unknown") (excerpt (page_content doc)).

(** [ask_question]; [qa_service] is the module variable, [None] when the
    service could not be built. *)
Definition ask_question (qa_service : option QAService) (request : QuestionRequest)
  : M AnswerResponse :=
  match qa_service with
  | None =>
      raise (HTTPException 503
               "QA Service is not initialized. Check your configuration.")
  | Some service =>
      if PyStr.blank (question request)
      then raise (HTTPException 400 "Question cannot be empty")
      else
        try_except
          (r <- ask service (question request) ;;
           let '(answer, docs) := r in
           ret (mkAnswerResponse answer (map source_info docs) (question request)))
          (fun e => raise (HTTPException 500
                             ("Error processing question: " +:+ exn_str e)))
  end.

(** The lists [processed_files] and [errors] of [upload_files]. *)
Record UploadLists := mkUploadLists {
  processed_files : list string;
  errors : list string
}.

(** One turn of the [for file in files] loop: the check of the suffix,
    then, inside the inner [try], the save of the upload to the temporary
    directory, the extraction of its text and the insertion.  (The
    creation of the temporary directory and the removal of the temporary
    file are taken to succeed.) *)
Definition upload_one (service : QAService) (acc : UploadLists) (file : UploadFile)
  : M UploadLists :=
  let ext := PyStr.lower (PathLib.suffix (filename file)) in
  if decide (ext ∈ [".txt"; ".pdf"; ".docx"; ".doc"]) then
    try_except
      (match save_upload (filename file) (file_bytes file) with
       | Raise e => raise e
       | Ok _ =>
           match process_uploaded_file (file_bytes file) (filename file) with
           | Raise e => raise e
           | Ok text_content =>
               if negb (PyStr.truthy (PyStr.strip text_content))
               then ret (mkUploadLists (processed_files acc)
                           (errors acc ++ [filename file +:+ ": No text content found"]))
               else
                 add_document service text_content {[ "source" := filename file ]} ;;;
                 ret (mkUploadLists (processed_files acc ++ [filename file])
                        (errors acc))
           end
       end)
      (fun e => ret (mkUploadLists (processed_files acc)
                       (errors acc ++ [filename file +:+ ": " +:+ exn_str e])))
  else
    ret (mkUploadLists (processed_files acc)
           (errors acc ++ [filename file +:+ ": Unsupported file type"])).

Fixpoint upload_loop (service : QAService) (files : list UploadFile)
  (acc : UploadLists) : M UploadLists :=
  match files with
  | [] => ret acc
  | file :: files' =>
      acc' <- upload_one service acc file ;;
      upload_loop service files' acc'
  end.

(** [upload_files] *)
Definition upload_files (qa_service : option QAService) (files : list UploadFile)
  : M UploadResponse :=
  match qa_service with
  | None => raise (HTTPException 503 "QA Service is not initialized")
  | Some service =>
      match files with
      | [] => raise (HTTPException 400 "No files provided")
      | _ =>
          try_except
            (lists <- upload_loop service files (mkUploadLists [] []) ;;
             match processed_files lists with
             | [] =>
                 raise (HTTPException 400
                          ("No files were processed successfully. Errors: "
                           +:+ PyStr.join "; " (errors lists)))
             | _ =>
                 ret (mkUploadResponse "Files processed successfully"
                        (length (processed_files lists))
                        (processed_files lists)
                        (match errors lists with
                         | [] => None
                         | _ => Some (errors lists)
                         end))
             end)
            (fun e => raise (HTTPException 500
                               ("Error processing files: " +:+ exn_str e)))
      end
  end.

(** ** Start of the service *)

(** The module body of api_fastapi.py up to the handlers: the imports
    build the vector store, and an exception there stops the program;
    then the service is built, and [qa_service] is [None] if that
    fails. *)
Definition startup : Result (option QAService * World) :=
  match store_module with
  | Raise e => Raise e
  | Ok index =>
      let w := mkWorld index [EmbedDocuments [page_content dummy_doc]] in
      match QAService_init with
      | Ok service => Ok (Some service, w)
      | Raise _ => Ok (None, w)
      end
  end.

(** The requests the running service answers. *)
Inductive Request :=
| AskRequest (request : QuestionRequest)
| UploadRequest (files : list UploadFile).

(** The world after a request has been answered. *)
Definition serve (qa_service : option QAService) (r : Request) (w : World) : World :=
  match r with
  | AskRequest request => snd (ask_question qa_service request w)
  | UploadRequest files => snd (upload_files qa_service files w)
  end.

Definition serve_all (qa_service : option QAService) (rs : list Request) (w : World)
  : World :=
  fold_left (fun w r => serve qa_service r w) rs w.

(** [health_check] *)
Definition health_check (qa_service : option QAService) : M (string * string) :=
  match qa_service with
  | None => raise (HTTPException 503 "QA Service not initialized")
  | Some _ => ret ("ok", "ready")
  end.

(** ** main.py *)

(** The prompt of [input]. *)
Definition prompt : string := nl +:+ "Ask a question (or type 'exit'): ".

(** What the loop prints for one answer: the answer, the heading of the
    sources and one line per retrieved document. *)
Definition print_answer (answer : string) (docs : list Document) : list string :=
  [nl +:+ "Answer:" +:+ nl +:+ " " +:+ answer; nl +:+ "Sources:"]
  ++ map (fun d => "- " +:+ dict_get (metadata d) "source" "unknown") docs.

(** The [while True] loop of [main] on the lines of the standard input:
    what is printed, how the loop ends and the world it leaves.  [input]
    raises at the end of the input; an exception of [qa.ask] is not
    caught. *)
Fixpoint main_loop (qa : QAService) (stdin : list string) (w : World)
  : list string * Result unit * World :=
  match stdin with
  | [] => ([prompt], Raise (Exception "EOF when reading a line"), w)
  | question :: stdin' =>
      if decide (PyStr.lower question = "exit") then ([prompt], Ok tt, w)
      else
        match ask qa question w with
        | (Raise e, w') => ([prompt], Raise e, w')
        | (Ok (answer, docs), w') =>
            let '(printed, r, w'') := main_loop qa stdin' w' in
            (prompt :: print_answer answer docs ++ printed, r, w'')
        end
  end.

(** [main], in the world the imports have built. *)
Definition main (stdin : list string) (w : World) : list string * Result unit * World :=
  match QAService_init with
  | Raise e => ([], Raise e, w)
  | Ok qa => main_loop qa stdin w
  end.

End Program.

(** ** A concrete set of collaborators, on which the program can be run *)

Module Demo.

(** Texts are embedded as their length; distances are differences of
    lengths.  The PDF parser rejects every file, and an upload cannot be
    saved under a name with a slash. *)
#[export] Instance backend : Backend := {|
  Embedding := nat;
  embed_documents := fun texts => Ok (map PyStr.len texts);
  embed_query := fun q => Ok (PyStr.len q);
  nearer := fun q a b =>
    Nat.leb (Nat.max a q - Nat.min a q) (Nat.max b q - Nat.min b q);
  chain_invoke := fun context q => Ok ("Answer to: " +:+ q);
  build_chain := Ok tt;
  pdf_loader := fun p => Ok [mkDocument "pdf text" {[ "source" := p ]}];
  docx_loader := fun p => Ok [mkDocument "docx text" {[ "source" := p ]}];
  text_loader := fun p => Ok [mkDocument "plain text" {[ "source" := p ]}];
  web_loader := fun u => Ok [mkDocument "page" {[ "source" := u ]}];
  txt_text := fun data => Ok data;
  pdf_text := fun data => Raise (Exception "EOF marker not found");
  docx_text := fun data => Ok data;
  save_upload := fun name data =>
    if PyStr.contains "/" name
    then Raise (Exception "[Errno 2] No such file or directory")
    else Ok tt
|}.

(** The service and the world right after the start. *)
Definition service : QAService := mkQAService (get_retriver 4) splitter.

Definition world : World :=
  mkWorld [(11, dummy_doc)] [EmbedDocuments ["Placeholder"]].

(** [n] copies of the character [c]. *)
Fixpoint repeat_char (c : ascii) (n : nat) : string :=
  match n with
  | O => EmptyString
  | S k => String c (repeat_char c k)
  end.

(** Three paragraphs of 500 characters each. *)
Definition three_paragraphs : string :=
  repeat_char "a" 500 +:+ nl +:+ nl +:+ repeat_char "b" 500 +:+ nl +:+ nl
  +:+ repeat_char "c" 500.

(** One word of 1000 characters. *)
Definition one_word : string := repeat_char "a" 500 +:+ repeat_char "b" 500.

(** Two words of 600 and 700 characters with 400 tabulators between
    them. *)
Definition tabbed_words : string :=
  repeat_char "a" 600 +:+ repeat_char "009" 400 +:+ repeat_char "b" 700.

End Demo.

(** ** The wording of the specification, for comparison with the code *)

Module SpecWords.

(** Section 4.6, step 1: a retrieved chunk as the labeled block
    [Source: <source>], a line feed, and the content right after it. *)
Definition labeled_block (d : Document) : string :=
  "Source: " +:+ dict_get (metadata d) "source" "" +:+ nl +:+ page_content d.

(** The blocks in ranked order, a blank line between them. *)
Definition format_docs (docs : list Document) : string :=
  PyStr.join (nl +:+ nl) (map labeled_block docs).

End SpecWords.

(** * Properties *)

(** ** The embedding at work *)

Example strip_example : PyStr.strip "  a b   " = "a b".
Proof. reflexivity. Qed.

Example segments_example : PyStr.segments "ab" "xabyababz" = ["x"; "y"; ""; "z"].
Proof. reflexivity. Qed.

Example suffix_example :
  PathLib.suffix "/tmp/x.y/Report.PDF" = ".PDF" /\ PathLib.suffix ".bashrc" = "".
Proof. split; reflexivity. Qed.

(** The scenario of section 8 of the specification: chunk size 20 and
    overlap 5.  The text is cut at the full stop, and the two chunks share
    nothing. *)
Example sky_example :
  TextSplitter.split_text (TextSplitter.mkSplitter 20 5 [nl +:+ nl; nl; "."; " "; ""])
    "The sky is blue. Water is wet."
  = ["The sky is blue"; ". Water is wet."].
Proof. reflexivity. Qed.

(** Without separators in the text the cut is by characters, and each
    chunk repeats the last 5 characters of the one before. *)
Example hard_cut_example :
  TextSplitter.split_text (TextSplitter.mkSplitter 20 5 [nl +:+ nl; nl; "."; " "; ""])
    "abcdefghijklmnopqrstuvwxyz0123456789ABCDEF"
  = ["abcdefghijklmnopqrst"; "pqrstuvwxyz012345678"; "456789ABCDEF"].
Proof. reflexivity. Qed.

(** A batch upload to the demonstration: one file is indexed, three are
    reported. *)
Example upload_example :
  fst (@upload_files Demo.backend (Some Demo.service)
         [mkUploadFile "virus.exe" "MZ"; mkUploadFile "a.txt" "hello world. bye";
          mkUploadFile "b.pdf" "x"; mkUploadFile "c.txt" "  "] Demo.world)
  = Ok (mkUploadResponse "Files processed successfully" 1 ["a.txt"]
          (Some ["virus.exe: Unsupported file type";
                 "b.pdf: Error reading PDF: EOF marker not found";
                 "c.txt: No text content found"])).
Proof. reflexivity. Qed.

(** ** Strings *)

Lemma app_nil_l (b : string) : "" +:+ b = b.
Proof. reflexivity. Qed.

Lemma app_cons (c : ascii) (a b : string) : String c a +:+ b = String c (a +:+ b).
Proof. reflexivity. Qed.

Ltac str_simpl := repeat (rewrite ?app_nil_l, ?app_cons in *; simpl in *).

Lemma len_app (a b : string) : PyStr.len (a +:+ b) = PyStr.len a + PyStr.len b.
Proof.
  unfold PyStr.len. induction a as [|c a IH]; str_simpl; [reflexivity|].
  now rewrite IH.
Qed.

Lemma app_empty_r (a : string) : a +:+ "" = a.
Proof. induction a as [|c a IH]; str_simpl; [reflexivity|]. now rewrite IH. Qed.

Lemma app_assoc_str (a b c : string) : (a +:+ b) +:+ c = a +:+ (b +:+ c).
Proof. induction a as [|x a IH]; str_simpl; [reflexivity|]. now rewrite IH. Qed.

Lemma len_take (n : nat) (s : string) :
  PyStr.len (PyStr.take n s) = Nat.min n (PyStr.len s).
Proof.
  unfold PyStr.len. revert s. induction n as [|n IH]; intros [|c s]; simpl; auto.
Qed.

Lemma startswith_app (p s : string) : PyStr.startswith p (p +:+ s) = true.
Proof.
  induction p as [|c p IH]; str_simpl; [reflexivity|].
  destruct (ascii_dec c c); [exact IH | congruence].
Qed.

Lemma startswith_inv (p s : string) :
  PyStr.startswith p s = true -> exists r, s = p +:+ r.
Proof.
  revert s. induction p as [|c p IH]; intros s H; simpl in *.
  - now exists s.
  - destruct s as [|d s]; [discriminate|].
    destruct (ascii_dec c d) as [->|]; [|discriminate].
    destruct (IH _ H) as [r ->]. now exists r.
Qed.

Lemma contains_here (p s : string) :
  PyStr.startswith p s = true -> PyStr.contains p s = true.
Proof. intros H. destruct s; simpl; rewrite H; reflexivity. Qed.

Section Properties.
Context {B : Backend}.

(** ** The loader *)

Lemma select_loader_ok (file_path : string) :
  is_ok (select_loader file_path) = true <->
  PyStr.lower (PathLib.suffix file_path) ∈ [".pdf"; ".docx"; ".txt"].
Proof.
  unfold select_loader. rewrite !elem_of_cons, elem_of_nil.
  repeat case_decide; simpl; intuition congruence.
Qed.

(** C7.  [DocumentLoader.load_file] looks at the lower-cased suffix of the
    path only: [.pdf], [.docx] and [.txt] go to the PDF, the DOCX and the
    text loader, and any other suffix raises the error
    [unsupported file format]; a loader is chosen exactly for these three
    suffixes. *)
Theorem load_file_dispatch (file_path : string) :
  (PyStr.lower (PathLib.suffix file_path) = ".pdf" ->
     load_file file_path = pdf_loader file_path) /\
  (PyStr.lower (PathLib.suffix file_path) = ".docx" ->
     load_file file_path = docx_loader file_path) /\
  (PyStr.lower (PathLib.suffix file_path) = ".txt" ->
     load_file file_path = text_loader file_path) /\
  (PyStr.lower (PathLib.suffix file_path) ∉ [".pdf"; ".docx"; ".txt"] ->
     load_file file_path = Raise (ValueError "unsupported file format")) /\
  (is_ok (select_loader file_path) = true <->
     PyStr.lower (PathLib.suffix file_path) ∈ [".pdf"; ".docx"; ".txt"]).
Proof.
  split; [|split; [|split; [|split]]]; try apply select_loader_ok.
  - intros E. unfold load_file, select_loader. rewrite E. reflexivity.
  - intros E. unfold load_file, select_loader. rewrite E. reflexivity.
  - intros E. unfold load_file, select_loader. rewrite E. reflexivity.
  - rewrite !elem_of_cons, elem_of_nil. intros H.
    unfold load_file, select_loader.
    repeat case_decide; try reflexivity; exfalso; apply H; auto.
Qed.

(** ** The context block of the prompt *)

(** C8, as the code has it.  [format_docs] renders every retrieved chunk
    as [Source: <source>], a line feed, ONE SPACE and then the content
    (the source is empty when the metadata has none), and joins the
    blocks in the order of the ranking with an empty line between two
    of them. *)
Theorem format_docs_blocks :
  format_docs [] = "" /\
  (forall d, format_docs [d] =
     "Source: " +:+ dict_get (metadata d) "source" "" +:+ nl +:+ " " +:+ page_content d) /\
  (forall d d' ds, format_docs (d :: d' :: ds) =
     format_docs [d] +:+ nl +:+ nl +:+ format_docs (d' :: ds)).
Proof.
  split; [reflexivity|]. split; [reflexivity|].
  intros d d' ds. unfold format_docs. simpl.
  now rewrite app_assoc_str.
Qed.

(** ** The sources of an answer *)

(** C9.  The excerpt shown for a retrieved chunk is its content when that
    has at most 200 characters, and otherwise its first 200 characters
    followed by three dots (203 characters in all); the dots are there
    exactly when the content is longer than 200 characters. *)
Theorem excerpt_preview (doc : Document) :
  (PyStr.len (page_content doc) <= 200 ->
     content (source_info doc) = page_content doc) /\
  (200 < PyStr.len (page_content doc) ->
     content (source_info doc) = PyStr.take 200 (page_content doc) +:+ "..." /\
     PyStr.len (content (source_info doc)) = 203) /\
  (content (source_info doc) = PyStr.take 200 (page_content doc) +:+ "..." <->
     200 < PyStr.len (page_content doc)).
Proof.
  unfold source_info, excerpt; cbn [content].
  destruct (200 <? PyStr.len (page_content doc)) eqn:E.
  - apply Nat.ltb_lt in E. split; [lia|]. split; [|tauto].
    intros _. split; [reflexivity|].
    rewrite len_app, len_take. change (PyStr.len "...") with 3. lia.
  - apply Nat.ltb_ge in E. split; [reflexivity|]. split; [lia|].
    split; [|lia]. intros H. apply (f_equal PyStr.len) in H.
    rewrite len_app, len_take in H. change (PyStr.len "...") with 3 in H. lia.
Qed.

(** ** The separators *)

Lemma pick_from_first (seps : list string) (text sep : string) (rest : list string) :
  TextSplitter.pick_from seps text = Some (sep, rest) ->
  exists before after,
    seps = before ++ sep :: after /\
    Forall (fun s => PyStr.truthy s = true /\ PyStr.contains s text = false) before /\
    ((sep = "" /\ rest = []) \/
     (PyStr.truthy sep = true /\ PyStr.contains sep text = true /\ rest = after)).
Proof.
  induction seps as [|s seps IH]; simpl; [discriminate|].
  destruct (PyStr.truthy s) eqn:Ts; simpl.
  - destruct (PyStr.contains s text) eqn:Cs.
    + intros [= <- <-]. exists [], seps. split; [reflexivity|]. split; [constructor|]. right. auto.
    + intros H. destruct (IH H) as (before & after & -> & Hb & Hs).
      exists (s :: before), after. repeat split; auto.
  - intros [= <- <-]. exists [], seps. split; [reflexivity|]. split; [constructor|].
    left. split; [|reflexivity]. destruct s; [reflexivity|discriminate].
Qed.

Lemma pick_from_empty_sep (seps : list string) (text : string) :
  "" ∈ seps -> is_Some (TextSplitter.pick_from seps text).
Proof.
  induction seps as [|s seps IH]; [intros H; inversion H|].
  intros H. simpl. destruct (PyStr.truthy s) eqn:Ts; simpl; [|eauto].
  destruct (PyStr.contains s text); [eauto|].
  apply IH. apply elem_of_cons in H as [<-|H]; [discriminate|exact H].
Qed.


(** ** Blank questions *)

Lemma blank_strip (s : string) : PyStr.blank s = true <-> PyStr.strip s = "".
Proof.
  unfold PyStr.blank. destruct s as [|c s]; [simpl; tauto|].
  cbn [PyStr.truthy negb orb].
  destruct (PyStr.strip (String c s)); simpl; split; congruence.
Qed.

(** ** The facade *)

Lemma logged_logged (w : World) (cs ds : list Call) :
  logged (logged w cs) ds = logged w (cs ++ ds).
Proof. unfold logged; simpl. now rewrite <- app_assoc. Qed.

(** [QAService.ask] calls the retriever, then the chain, whatever the
    question is. *)
Lemma ask_run (service : QAService) (q : string) (w : World) :
  ask service q w =
  match embed_query q with
  | Raise e => (Raise e, logged w [EmbedQuery q])
  | Ok v =>
      let docs :=
        similarity_search_by_vector (vector_store w) v (top_k (retriever service)) in
      match chain_invoke (format_docs docs) q with
      | Raise e => (Raise e, logged w [EmbedQuery q; ChainInvoke (format_docs docs) q])
      | Ok a => (Ok (a, docs), logged w [EmbedQuery q; ChainInvoke (format_docs docs) q])
      end
  end.
Proof.
  unfold ask, retriever_invoke, similarity_search, bind, call, get_store, ret.
  destruct (embed_query q) as [v|e]; [|reflexivity]. cbn [logged vector_store].
  destruct (chain_invoke _ q); rewrite logged_logged; reflexivity.
Qed.

Lemma ask_store (service : QAService) (q : string) (w : World) :
  vector_store (snd (ask service q w)) = vector_store w.
Proof.
  rewrite ask_run. destruct (embed_query q); [|reflexivity].
  cbv zeta. destruct (chain_invoke _ q); reflexivity.
Qed.

Lemma ask_question_blank (service : QAService) (request : QuestionRequest) (w : World) :
  PyStr.strip (question request) = "" ->
  ask_question (Some service) request w =
  (Raise (HTTPException 400 "Question cannot be empty"), w).
Proof.
  intros H. apply blank_strip in H. unfold ask_question. rewrite H. reflexivity.
Qed.

Lemma ask_question_answered (service : QAService) (request : QuestionRequest)
  (w w' : World) (a : string) (docs : list Document) :
  PyStr.strip (question request) <> "" ->
  ask service (question request) w = (Ok (a, docs), w') ->
  ask_question (Some service) request w =
  (Ok (mkAnswerResponse a (map source_info docs) (question request)), w').
Proof.
  intros H Hask.
  assert (Hb : PyStr.blank (question request) = false).
  { destruct (PyStr.blank (question request)) eqn:E; [|reflexivity].
    apply blank_strip in E. contradiction. }
  unfold ask_question. rewrite Hb. unfold try_except, bind. rewrite Hask. reflexivity.
Qed.

(** C3, as the code has it.  The check of the question is made by the HTTP
    operation [ask_question], not by the facade: a question that is blank
    after trimming is answered with status 400 and the world is left as it
    was (no change of the index, no call to a model).  [QAService.ask]
    itself calls the retriever and then, if that succeeds, the chain on
    every question, and returns the answer of the chain with the retrieved
    documents; neither call changes the index.  For a question that is not
    blank [ask_question] returns this composition with the sources built
    from the documents. *)
Theorem ask_question_rejects_blank (service : QAService) (request : QuestionRequest)
  (w : World) :
  (PyStr.strip (question request) = "" ->
     ask_question (Some service) request w =
     (Raise (HTTPException 400 "Question cannot be empty"), w)) /\
  (forall q,
     ask service q w =
     match embed_query q with
     | Raise e => (Raise e, logged w [EmbedQuery q])
     | Ok v =>
         let docs :=
           similarity_search_by_vector (vector_store w) v (top_k (retriever service)) in
         match chain_invoke (format_docs docs) q with
         | Raise e =>
             (Raise e, logged w [EmbedQuery q; ChainInvoke (format_docs docs) q])
         | Ok a =>
             (Ok (a, docs), logged w [EmbedQuery q; ChainInvoke (format_docs docs) q])
         end
     end) /\
  (PyStr.strip (question request) <> "" ->
     forall a docs w', ask service (question request) w = (Ok (a, docs), w') ->
     ask_question (Some service) request w =
     (Ok (mkAnswerResponse a (map source_info docs) (question request)), w')).
Proof.
  split; [|split].
  - apply ask_question_blank.
  - intros q. apply ask_run.
  - intros H a docs w' Hask. now apply ask_question_answered.
Qed.

(** ** The start of the service *)

Lemma store_module_inv (index : Index) :
  store_module = Ok index ->
  exists e, index = [(e, dummy_doc)] /\ embed_documents ["Placeholder"] = Ok [e].
Proof.
  unfold store_module. destruct splitted_docs; [|discriminate].
  unfold from_documents. cbn [map page_content dummy_doc].
  destruct (embed_documents ["Placeholder"]) as [[|e [|e' es]]|]; try discriminate.
  intros [= <-]. exists e. split; reflexivity.
Qed.

Lemma startup_inv (qa : option QAService) (w : World) :
  startup = Ok (qa, w) ->
  exists e, w = mkWorld [(e, dummy_doc)] [EmbedDocuments ["Placeholder"]] /\
            (qa = None \/ qa = Some (mkQAService (get_retriver 4) splitter)).
Proof.
  unfold startup. destruct store_module as [index|] eqn:E; [|discriminate].
  destruct (store_module_inv _ E) as (e & -> & _).
  unfold QAService_init. destruct build_chain; intros [= <- <-]; exists e; auto.
Qed.

Lemma search_singleton (e q : Embedding) (d : Document) (k : nat) :
  similarity_search_by_vector [(e, d)] q k = firstn k [d].
Proof. destruct k as [|[|k]]; reflexivity. Qed.

(** C5.  The index exists from the start of the service on: the start
    fails exactly when the construction of the vector store fails, and
    after a successful start the index holds the placeholder entry and
    answers every query vector and every [k] with a list of documents (the
    placeholder, cut to [k]); a query by text needs nothing more than the
    embedding of the text. *)
Theorem fresh_index_answers_queries :
  (forall e, startup = Raise e <-> store_module = Raise e) /\
  (forall qa w, startup = Ok (qa, w) ->
     (exists e, vector_store w = [(e, dummy_doc)]) /\
     (forall q k, similarity_search_by_vector (vector_store w) q k = firstn k [dummy_doc]) /\
     (forall query k q, embed_query query = Ok q ->
        similarity_search query k w =
        (Ok (firstn k [dummy_doc]), logged w [EmbedQuery query]))).
Proof.
  split.
  - intros e. unfold startup. destruct store_module; [|split; congruence].
    cbv zeta. destruct QAService_init; split; discriminate.
  - intros qa w H. destruct (startup_inv _ _ H) as (e & -> & _). split; [|split].
    + exists e. reflexivity.
    + intros q k. apply search_singleton.
    + intros query k q Hq. unfold similarity_search, bind, call, get_store, ret.
      rewrite Hq. cbn [logged vector_store]. now rewrite search_singleton.
Qed.

(** ** The store only grows *)

Lemma add_documents_store (docs : list Document) (w : World) :
  vector_store w `prefix_of` vector_store (snd (add_documents docs w)).
Proof.
  unfold add_documents, bind, call, get_store, set_store, raise.
  destruct (embed_documents _) as [embs|]; [|reflexivity].
  destruct (length docs =? length embs); [|reflexivity].
  cbn. apply prefix_app_r. reflexivity.
Qed.

Lemma add_document_store (service : QAService) (text : string)
  (meta : gmap string string) (w : World) :
  vector_store w `prefix_of` vector_store (snd (add_document service text meta w)).
Proof.
  unfold add_document, bind, ret.
  pose proof (add_documents_store
    (TextSplitter.split_documents (text_splitter service) [mkDocument text meta]) w) as H.
  destruct (add_documents _ w) as [[[]|e] w']; exact H.
Qed.

Lemma upload_one_store (service : QAService) (acc : UploadLists) (file : UploadFile)
  (w : World) :
  vector_store w `prefix_of` vector_store (snd (upload_one service acc file w)).
Proof.
  unfold upload_one. destruct (decide _) as [_|_]; [|reflexivity].
  unfold try_except. destruct (save_upload _ _) as [_|e]; [|reflexivity].
  destruct (process_uploaded_file _ _) as [text|e]; [|reflexivity].
  destruct (negb _); [reflexivity|].
  unfold bind, ret.
  pose proof (add_document_store service text {[ "source" := filename file ]} w) as H.
  destruct (add_document _ _ _ w) as [[n|e] w']; exact H.
Qed.

Lemma upload_loop_store (service : QAService) (files : list UploadFile)
  (acc : UploadLists) (w : World) :
  vector_store w `prefix_of` vector_store (snd (upload_loop service files acc w)).
Proof.
  revert acc w. induction files as [|file files IH]; intros acc w; [reflexivity|].
  cbn [upload_loop]. unfold bind.
  pose proof (upload_one_store service acc file w) as H.
  destruct (upload_one service acc file w) as [[acc'|e] w']; [|exact H].
  etrans; [exact H|]. apply IH.
Qed.

Lemma upload_files_store (qa : option QAService) (files : list UploadFile) (w : World) :
  vector_store w `prefix_of` vector_store (snd (upload_files qa files w)).
Proof.
  unfold upload_files. destruct qa as [service|]; [|reflexivity].
  destruct files as [|file files]; [reflexivity|].
  unfold try_except, bind, raise, ret.
  pose proof (upload_loop_store service (file :: files) (mkUploadLists [] []) w) as H.
  destruct (upload_loop _ _ _ w) as [[lists|e] w']; [|exact H].
  destruct (processed_files lists); exact H.
Qed.

Lemma ask_question_store (qa : option QAService) (request : QuestionRequest) (w : World) :
  vector_store (snd (ask_question qa request w)) = vector_store w.
Proof.
  unfold ask_question. destruct qa as [service|]; [|reflexivity].
  destruct (PyStr.blank _); [reflexivity|].
  unfold try_except, bind, raise, ret.
  pose proof (ask_store service (question request) w) as H.
  destruct (ask service _ w) as [[[a docs]|e] w']; exact H.
Qed.

Lemma serve_store (qa : option QAService) (r : Request) (w : World) :
  vector_store w `prefix_of` vector_store (serve qa r w).
Proof.
  destruct r; simpl.
  - rewrite ask_question_store. reflexivity.
  - apply upload_files_store.
Qed.

Lemma serve_all_store (qa : option QAService) (rs : list Request) (w : World) :
  vector_store w `prefix_of` vector_store (serve_all qa rs w).
Proof.
  unfold serve_all. revert w. induction rs as [|r rs IH]; intros w; [reflexivity|].
  simpl. etrans; [apply (serve_store qa r)|]. apply IH.
Qed.

(** C10.  The vector store is built from one document with the content
    [Placeholder] and the source [system].  No request removes it: after
    any sequence of questions and uploads it is still the first entry of
    the index.  On a freshly started service a question that is not blank
    is answered with the placeholder as its only source, named
    [system]. *)
Theorem placeholder_stays_indexed :
  page_content dummy_doc = "Placeholder" /\
  metadata dummy_doc !! "source" = Some "system" /\
  (forall index, store_module = Ok index -> exists e, index = [(e, dummy_doc)]) /\
  (forall qa w requests, startup = Ok (qa, w) ->
     exists e later, vector_store (serve_all qa requests w) = (e, dummy_doc) :: later) /\
  (forall service w request v a,
     startup = Ok (Some service, w) ->
     PyStr.strip (question request) <> "" ->
     embed_query (question request) = Ok v ->
     chain_invoke (format_docs [dummy_doc]) (question request) = Ok a ->
     fst (ask_question (Some service) request w) =
     Ok (mkAnswerResponse a [mkSource "system" "Placeholder"] (question request))).
Proof.
  split; [reflexivity|]. split; [reflexivity|]. split; [|split].
  - intros index H. destruct (store_module_inv _ H) as (e & -> & _). now exists e.
  - intros qa w requests H. destruct (startup_inv _ _ H) as (e & -> & _).
    destruct (serve_all_store qa requests
                (mkWorld [(e, dummy_doc)] [EmbedDocuments ["Placeholder"]]))
      as [later E].
    exists e, later. exact E.
  - intros service w request v a H Hq Hv Ha.
    destruct (startup_inv _ _ H) as (e & -> & [|[= ->]]); [discriminate|].
    pose proof (ask_run (mkQAService (get_retriver 4) splitter) (question request)
                  (mkWorld [(e, dummy_doc)] [EmbedDocuments ["Placeholder"]])) as Hask.
    rewrite Hv in Hask. cbv zeta in Hask. cbn [vector_store] in Hask.
    rewrite search_singleton in Hask. cbn [firstn top_k retriever get_retriver] in Hask.
    rewrite Ha in Hask.
    rewrite (ask_question_answered _ _ _ _ _ _ Hq Hask). reflexivity.
Qed.

(** ** Uploads *)

Lemma contains_self (p : string) : PyStr.contains p p = true.
Proof.
  apply contains_here. rewrite <- (app_empty_r p) at 2. apply startswith_app.
Qed.

Lemma contains_prepend (a p s : string) :
  PyStr.contains p s = true -> PyStr.contains p (a +:+ s) = true.
Proof.
  intros H. induction a as [|c a IH]; [exact H|].
  rewrite app_cons. simpl. rewrite IH. apply orb_true_r.
Qed.


(** C6, as the code has it.  When the only uploaded file has a suffix other
    than [.txt], [.pdf], [.docx] and [.doc], the loop records the warning
    [<name>: Unsupported file type] and processes no file; as nothing was
    processed the operation does not return a body (with a count of
    processed files) but raises an HTTP error, whose detail contains the
    warning; the world is left as it was. *)
Theorem upload_unsupported_only (service : QAService) (file : UploadFile) (w : World) :
  PyStr.lower (PathLib.suffix (filename file)) ∉ [".txt"; ".pdf"; ".docx"; ".doc"] ->
  upload_loop service [file] (mkUploadLists [] []) w =
    (Ok (mkUploadLists [] [filename file +:+ ": Unsupported file type"]), w) /\
  exists status detail,
    upload_files (Some service) [file] w = (Raise (HTTPException status detail), w) /\
    PyStr.contains (filename file +:+ ": Unsupported file type") detail = true.
Proof.
  intros H.
  assert (E : upload_loop service [file] (mkUploadLists [] []) w =
              (Ok (mkUploadLists [] [filename file +:+ ": Unsupported file type"]), w)).
  { cbn [upload_loop]. unfold bind, upload_one. case_decide; [contradiction|]. reflexivity. }
  split; [exact E|].
  unfold upload_files, try_except, bind. rewrite E. cbn [processed_files errors raise].
  eexists _, _. split; [reflexivity|].
  cbn [exn_str PyStr.join].
  do 4 apply contains_prepend. apply contains_self.
Qed.

End Properties.

(** ** The chunks of one merge pass *)

Section MergeProperties.

Variable cfg : TextSplitter.Splitter.
Variable separator : string.

Lemma omap_cons_list {A C} (f : A -> option C) (x : A) (l : list A) :
  omap f (x :: l) = option_list (f x) ++ omap f l.
Proof. cbn. destruct (f x); reflexivity. Qed.

Lemma merge_loop_windows (splits docs current_doc : list string) (total : nat) :
  TextSplitter.merge_loop cfg separator splits docs current_doc total =
  docs ++ omap (fun w => TextSplitter.join_docs w separator)
               (TextSplitter.windows cfg separator splits current_doc total).
Proof.
  revert docs current_doc total.
  induction splits as [|d splits IH]; intros docs current_doc total.
  - cbn [TextSplitter.merge_loop TextSplitter.windows]. rewrite omap_cons_list.
    now rewrite app_nil_r.
  - cbn [TextSplitter.merge_loop TextSplitter.windows].
    destruct (TextSplitter.overflows cfg separator current_doc total (PyStr.len d)).
    + destruct (0 <? length current_doc).
      * destruct (TextSplitter.pop_front cfg separator (PyStr.len d) current_doc total)
          as [cur tot].
        rewrite IH. cbn [app]. rewrite omap_cons_list.
        now rewrite <- app_assoc.
      * rewrite IH. reflexivity.
    + rewrite IH. reflexivity.
Qed.

Lemma join_cons (x : string) (l : list string) :
  l <> [] -> PyStr.join separator (x :: l) = x +:+ separator +:+ PyStr.join separator l.
Proof. destruct l; [congruence|reflexivity]. Qed.

Lemma pop_front_spec (_len : nat) (current_doc kept : list string) (total tot : nat) :
  total = PyStr.len (PyStr.join separator current_doc) ->
  TextSplitter.pop_front cfg separator _len current_doc total = (kept, tot) ->
  kept `suffix_of` current_doc /\
  tot = PyStr.len (PyStr.join separator kept) /\
  tot <= TextSplitter.chunk_overlap cfg.
Proof.
  revert total. induction current_doc as [|first rest IH]; intros total Ht.
  - simpl. intros [= <- <-]. split; [reflexivity|]. split; [exact Ht|].
    rewrite Ht. simpl. lia.
  - cbn [TextSplitter.pop_front].
    destruct (_ || _) eqn:Econd.
    + intros H. apply IH in H.
      * destruct H as (Hs & Hj & Ho). split; [|auto].
        now apply suffix_cons_r.
      * rewrite Ht. destruct rest as [|second rest].
        -- simpl. rewrite Nat.add_0_r. simpl. lia.
        -- rewrite join_cons by discriminate. rewrite !len_app.
           cbn [length]. replace (1 <? S (S (length rest))) with true
             by (symmetry; apply Nat.ltb_lt; lia). lia.
    + intros [= <- <-]. split; [reflexivity|]. split; [exact Ht|].
      apply orb_false_iff in Econd as [Ho _]. apply Nat.ltb_ge in Ho. exact Ho.
Qed.

Lemma join_snoc (l : list string) (d : string) :
  PyStr.len (PyStr.join separator (l ++ [d])) =
  PyStr.len (PyStr.join separator l)
  + (PyStr.len d + (if 1 <? length (l ++ [d]) then PyStr.len separator else 0)).
Proof.
  induction l as [|x l IH]; [simpl; lia|].
  destruct l as [|y l].
  - clear IH. simpl. rewrite !len_app. lia.
  - change ((x :: y :: l) ++ [d]) with (x :: ((y :: l) ++ [d])).
    assert (E1 : (1 <? length ((y :: l) ++ [d])) = true)
      by (apply Nat.ltb_lt; rewrite length_app; simpl; lia).
    assert (E2 : (1 <? length (x :: (y :: l) ++ [d])) = true)
      by (apply Nat.ltb_lt; simpl; lia).
    rewrite E1 in IH. rewrite E2.
    rewrite join_cons by (simpl; discriminate).
    rewrite (join_cons x (y :: l)) by discriminate.
    rewrite !len_app, IH. lia.
Qed.

Lemma windows_head (splits current_doc : list string) (total : nat) :
  exists w ws more,
    TextSplitter.windows cfg separator splits current_doc total = w :: ws /\
    w = current_doc ++ more.
Proof.
  revert current_doc total. induction splits as [|d splits IH]; intros current_doc total.
  - exists current_doc, [], []. now rewrite app_nil_r.
  - cbn [TextSplitter.windows].
    destruct (TextSplitter.overflows cfg separator current_doc total (PyStr.len d)).
    + destruct (0 <? length current_doc).
      * destruct (TextSplitter.pop_front _ _ _ _ _) as [cur tot].
        eexists current_doc, _, []. now rewrite app_nil_r.
      * destruct (IH (current_doc ++ [d])
          (total + (PyStr.len d + (if 1 <? length (current_doc ++ [d])
                                   then PyStr.len separator else 0))))
          as (w & ws & more & E & ->).
        exists ((current_doc ++ [d]) ++ more), ws, (d :: more).
        split; [exact E|]. now rewrite <- app_assoc.
    + destruct (IH (current_doc ++ [d])
          (total + (PyStr.len d + (if 1 <? length (current_doc ++ [d])
                                   then PyStr.len separator else 0))))
          as (w & ws & more & E & ->).
      exists ((current_doc ++ [d]) ++ more), ws, (d :: more).
      split; [exact E|]. now rewrite <- app_assoc.
Qed.

End MergeProperties.

Section SplitProperties.
Variable cfg : TextSplitter.Splitter.

(** ** The loop over the pieces *)

Lemma split_loop_final (sep : string) (deeper : string -> list string)
  (splits final good : list string) :
  TextSplitter.split_loop cfg sep deeper splits final good =
  final ++ TextSplitter.split_loop cfg sep deeper splits [] good.
Proof.
  revert final good. induction splits as [|s splits IH]; intros final good.
  - cbn [TextSplitter.split_loop]. destruct good; [now rewrite app_nil_r|reflexivity].
  - cbn [TextSplitter.split_loop]. destruct (PyStr.len s <? TextSplitter.chunk_size cfg).
    + apply IH.
    + rewrite IH. rewrite (IH (_ ++ deeper s)).
      destruct good; cbn [app]; now rewrite <- ?app_assoc.
Qed.

Lemma split_loop_ext (sep : string) (deeper1 deeper2 : string -> list string)
  (splits final good : list string) :
  (forall s, deeper1 s = deeper2 s) ->
  TextSplitter.split_loop cfg sep deeper1 splits final good =
  TextSplitter.split_loop cfg sep deeper2 splits final good.
Proof.
  intros H. revert final good. induction splits as [|s splits IH]; intros final good.
  - reflexivity.
  - cbn [TextSplitter.split_loop]. destruct (PyStr.len s <? TextSplitter.chunk_size cfg).
    + apply IH.
    + rewrite H. apply IH.
Qed.

Lemma split_loop_short (sep : string) (deeper : string -> list string)
  (splits good : list string) :
  Forall (fun p => PyStr.len p < TextSplitter.chunk_size cfg) splits ->
  TextSplitter.split_loop cfg sep deeper splits [] good =
  TextSplitter.merge_splits cfg sep (good ++ splits).
Proof.
  intros H. revert good. induction H as [|s splits Hs _ IH]; intros good.
  - cbn [TextSplitter.split_loop]. rewrite app_nil_r. destruct good; reflexivity.
  - cbn [TextSplitter.split_loop]. apply Nat.ltb_lt in Hs. rewrite Hs.
    rewrite IH. now rewrite <- app_assoc.
Qed.

Lemma pick_from_shorter (seps : list string) (text sep : string) (rest : list string) :
  TextSplitter.pick_from seps text = Some (sep, rest) -> length rest < length seps.
Proof.
  intros H. destruct (pick_from_first _ _ _ _ H) as (before & after & -> & _ & Hr).
  rewrite length_app. cbn [length]. destruct Hr as [[_ ->]|(_ & _ & ->)]; simpl; lia.
Qed.

Lemma pick_separator_shorter (seps : list string) (text sep : string) (rest : list string) :
  TextSplitter.pick_separator seps text = (sep, rest) ->
  rest = [] \/ length rest < length seps.
Proof.
  unfold TextSplitter.pick_separator.
  destruct (TextSplitter.pick_from seps text) as [[s r]|] eqn:E.
  - intros [= <- <-]. right. eapply pick_from_shorter, E.
  - intros [= <- <-]. now left.
Qed.

(** Fuel beyond the number of separators changes nothing. *)
Lemma split_text_fuel (f1 f2 : nat) (text : string) (seps : list string) :
  length seps < f1 -> length seps < f2 ->
  TextSplitter._split_text cfg f1 text seps = TextSplitter._split_text cfg f2 text seps.
Proof.
  revert f2 text seps. induction f1 as [|f1 IH]; intros f2 text seps H1 H2; [lia|].
  destruct f2 as [|f2]; [lia|]. cbn [TextSplitter._split_text].
  destruct (TextSplitter.pick_separator seps text) as [sep rest] eqn:E.
  apply split_loop_ext. intros s.
  destruct rest as [|r rest]; [reflexivity|].
  destruct (pick_separator_shorter _ _ _ _ E) as [|Hlen]; [discriminate|].
  apply IH; lia.
Qed.

Lemma split_text_short (text : string) :
  Forall (fun p => PyStr.len p < TextSplitter.chunk_size cfg)
    (TextSplitter.split_text_with_regex text
       (fst (TextSplitter.pick_separator (TextSplitter.separators cfg) text))) ->
  TextSplitter.split_text cfg text =
  TextSplitter.merge_splits cfg ""
    (TextSplitter.split_text_with_regex text
       (fst (TextSplitter.pick_separator (TextSplitter.separators cfg) text))).
Proof.
  intros H. unfold TextSplitter.split_text. cbn [TextSplitter._split_text].
  destruct (TextSplitter.pick_separator _ text) as [sep rest]. cbn [fst] in *.
  now rewrite split_loop_short.
Qed.

End SplitProperties.

(** ** Text that is not blank *)

Lemma lstrip_inked (s : string) : PyStr.inked (PyStr.lstrip s) = PyStr.inked s.
Proof.
  induction s as [|c s IH]; [reflexivity|]. cbn [PyStr.lstrip PyStr.inked].
  destruct (PyStr.isspace c) eqn:E; [exact IH|]. cbn [PyStr.inked]. now rewrite E.
Qed.

Lemma rstrip_empty (s : string) : PyStr.rstrip s = "" <-> PyStr.inked s = false.
Proof.
  induction s as [|c s IH]; [simpl; tauto|]. simpl.
  destruct (PyStr.rstrip s) eqn:E.
  - destruct (PyStr.isspace c); simpl.
    + tauto.
    + split; discriminate.
  - split; [discriminate|]. intros H. apply orb_false_iff in H as [_ H].
    apply IH in H. discriminate.
Qed.

Lemma strip_empty (s : string) : PyStr.strip s = "" <-> PyStr.inked s = false.
Proof. unfold PyStr.strip. now rewrite rstrip_empty, lstrip_inked. Qed.

Lemma inked_app (a b : string) : PyStr.inked (a +:+ b) = PyStr.inked a || PyStr.inked b.
Proof.
  induction a as [|c a IH]; [reflexivity|]. rewrite app_cons. simpl.
  now rewrite IH, orb_assoc.
Qed.

Lemma inked_join (sep x : string) (l : list string) :
  x ∈ l -> PyStr.inked x = true -> PyStr.inked (PyStr.join sep l) = true.
Proof.
  intros Hin Hx. induction l as [|y l IH]; [inversion Hin|].
  destruct l as [|z l].
  - apply elem_of_cons in Hin as [->|Hin]; [exact Hx|inversion Hin].
  - change (PyStr.join sep (y :: z :: l)) with (y +:+ sep +:+ PyStr.join sep (z :: l)).
    rewrite !inked_app. apply elem_of_cons in Hin as [->|Hin].
    + now rewrite Hx.
    + rewrite (IH Hin). now rewrite !orb_true_r.
Qed.

Lemma inked_join_inv (sep : string) (l : list string) :
  PyStr.inked (PyStr.join sep l) = true ->
  (exists x, x ∈ l /\ PyStr.inked x = true) \/ (PyStr.inked sep = true /\ 2 <= length l).
Proof.
  induction l as [|y l IH]; [discriminate|].
  destruct l as [|z l].
  - intros H. left. exists y. split; [left|exact H].
  - change (PyStr.join sep (y :: z :: l)) with (y +:+ sep +:+ PyStr.join sep (z :: l)).
    rewrite !inked_app. intros H.
    apply orb_true_iff in H as [H|H]; [left; exists y; split; [left|exact H]|].
    apply orb_true_iff in H as [H|H]; [right; split; [exact H|simpl; lia]|].
    destruct (IH H) as [(x & Hin & Hx)|[Hs _]].
    + left. exists x. split; [now right|exact Hx].
    + right. split; [exact Hs|simpl; lia].
Qed.

(** ** The pieces of a text make up the text *)

Lemma drop_app (a b : string) : PyStr.drop (PyStr.len a) (a +:+ b) = b.
Proof. induction a as [|c a IH]; [reflexivity|]. rewrite app_cons. exact IH. Qed.

Lemma segments_go_cons (sep : string) (k : nat) (s : string) :
  exists seg rest, PyStr.segments_go sep k s = seg :: rest.
Proof.
  revert k. induction s as [|c s IH]; intros k; [simpl; eauto|].
  cbn [PyStr.segments_go]. destruct k as [|k]; [|apply IH].
  destruct (PyStr.startswith sep (String c s)); [eauto|].
  destruct (IH 0) as (seg & rest & ->). eauto.
Qed.

Lemma join_cons_char (sep : string) (c : ascii) (seg : string) (rest : list string) :
  PyStr.join sep (String c seg :: rest) = String c (PyStr.join sep (seg :: rest)).
Proof. destruct rest; reflexivity. Qed.

Lemma segments_go_join (sep : string) (k : nat) (s : string) :
  sep <> "" -> k <= PyStr.len s ->
  PyStr.join sep (PyStr.segments_go sep k s) = PyStr.drop k s.
Proof.
  intros Hsep. revert k. induction s as [|c s IH]; intros k Hk.
  - simpl in Hk. assert (k = 0) as -> by lia. reflexivity.
  - cbn [PyStr.segments_go]. destruct k as [|k].
    + destruct (PyStr.startswith sep (String c s)) eqn:E.
      * apply startswith_inv in E as [r E].
        destruct sep as [|c' sep]; [congruence|].
        rewrite app_cons in E. injection E as <- ->.
        destruct (segments_go_cons (String c sep) (PyStr.len (String c sep) - 1)
                    (sep +:+ r)) as (seg & rest & Eseg).
        rewrite Eseg. change (PyStr.join (String c sep) ("" :: seg :: rest))
          with ("" +:+ String c sep +:+ PyStr.join (String c sep) (seg :: rest)).
        rewrite <- Eseg, IH.
        -- simpl. rewrite Nat.sub_0_r. change (String.length sep) with (PyStr.len sep).
           rewrite drop_app. reflexivity.
        -- rewrite len_app. simpl. unfold PyStr.len. lia.
      * destruct (segments_go_cons sep 0 s) as (seg & rest & Eseg).
        rewrite Eseg, join_cons_char, <- Eseg, IH by lia. reflexivity.
    + simpl. apply IH. simpl in Hk. unfold PyStr.len in *. lia.
Qed.

Lemma join_chars (s : string) : PyStr.join "" (PyStr.chars s) = s.
Proof.
  induction s as [|c s IH]; [reflexivity|]. cbn [PyStr.chars].
  destruct (PyStr.chars s) eqn:E.
  - simpl. destruct s; [reflexivity|discriminate].
  - change (PyStr.join "" (String c "" :: s0 :: l))
      with (String c "" +:+ "" +:+ PyStr.join "" (s0 :: l)).
    rewrite IH. reflexivity.
Qed.

Lemma inked_nonempty (s : string) : PyStr.inked s = true -> s <> "".
Proof. intros H ->. discriminate. Qed.

(** A text with ink has a piece with ink. *)
Lemma pieces_inked (text sep : string) :
  PyStr.inked text = true ->
  exists p, p ∈ TextSplitter.split_text_with_regex text sep /\ PyStr.inked p = true.
Proof.
  intros H. unfold TextSplitter.split_text_with_regex.
  assert (Hfilter : forall (l : list string) p, p ∈ l -> PyStr.inked p = true ->
            exists p, p ∈ filter (fun s => s <> "") l /\ PyStr.inked p = true).
  { intros l p Hin Hp. exists p. split; [|exact Hp].
    apply list_elem_of_filter. split; [now apply inked_nonempty|exact Hin]. }
  destruct (PyStr.truthy sep) eqn:Ts.
  - assert (Hsep : sep <> "") by (intros ->; discriminate).
    pose proof (segments_go_join sep 0 text Hsep ltac:(lia)) as Hj.
    change (PyStr.segments_go sep 0 text) with (PyStr.segments sep text) in Hj.
    cbn [PyStr.drop] in Hj.
    destruct (PyStr.segments sep text) as [|first others] eqn:Es.
    { simpl in Hj. subst text. discriminate. }
    rewrite <- Hj in H. apply inked_join_inv in H as [(x & Hin & Hx)|[Hs Hlen]].
    + apply elem_of_cons in Hin as [->|Hin].
      * apply (Hfilter _ first); [left|exact Hx].
      * apply (Hfilter _ (sep +:+ x)).
        -- right. apply list_elem_of_fmap. exists x. split; [reflexivity|exact Hin].
        -- rewrite inked_app, Hx. apply orb_true_r.
    + destruct others as [|second others]; [simpl in Hlen; lia|].
      apply (Hfilter _ (sep +:+ second)).
      * right. left.
      * rewrite inked_app, Hs. reflexivity.
  - rewrite <- (join_chars text) in H.
    apply inked_join_inv in H as [(x & Hin & Hx)|[Hs _]]; [|discriminate].
    now apply (Hfilter _ x).
Qed.

Section ChunkProperties.
Variable cfg : TextSplitter.Splitter.

(** ** Every piece lands in a chunk *)

Lemma windows_cover (sep : string) (splits current_doc : list string) (total : nat)
  (x : string) :
  x ∈ current_doc ++ splits ->
  exists w, w ∈ TextSplitter.windows cfg sep splits current_doc total /\ x ∈ w.
Proof.
  revert current_doc total. induction splits as [|d splits IH]; intros current_doc total Hx.
  - rewrite app_nil_r in Hx. exists current_doc. split; [left|exact Hx].
  - cbn [TextSplitter.windows].
    assert (Hgo : forall cur tot,
      x ∈ cur ++ [d] ++ splits ->
      exists w, w ∈ TextSplitter.windows cfg sep splits (cur ++ [d]) tot /\ x ∈ w).
    { intros cur tot H. apply IH. now rewrite <- app_assoc. }
    destruct (TextSplitter.overflows cfg sep current_doc total (PyStr.len d)).
    + destruct (0 <? length current_doc).
      * destruct (TextSplitter.pop_front _ _ _ _ _) as [cur tot]. cbn [app].
        apply elem_of_app in Hx as [Hx|Hx].
        -- exists current_doc. split; [left|exact Hx].
        -- destruct (Hgo cur (tot + (PyStr.len d + (if 1 <? length (cur ++ [d])
                                                     then PyStr.len sep else 0))))
             as (w & Hw & Hxw).
           { apply elem_of_app. now right. }
           exists w. split; [now right|exact Hxw].
      * cbn [app]. now apply Hgo.
    + cbn [app]. now apply Hgo.
Qed.

Lemma merge_splits_inked (sep : string) (splits : list string) (x : string) :
  x ∈ splits -> PyStr.inked x = true -> TextSplitter.merge_splits cfg sep splits <> [].
Proof.
  intros Hin Hx. unfold TextSplitter.merge_splits. rewrite merge_loop_windows.
  cbn [app]. destruct (windows_cover sep splits [] 0 x Hin) as (w & Hw & Hxw).
  assert (Hj : is_Some (TextSplitter.join_docs w sep)).
  { unfold TextSplitter.join_docs.
    destruct (PyStr.strip (PyStr.join sep w)) eqn:E; [|simpl; eauto].
    apply strip_empty in E. rewrite (inked_join sep x w Hxw Hx) in E. discriminate. }
  destruct Hj as [text Hj]. intros Hnil.
  assert (Hel : text ∈ omap (fun w => TextSplitter.join_docs w sep)
                         (TextSplitter.windows cfg sep splits [] 0)).
  { apply list_elem_of_omap. exists w. auto. }
  rewrite Hnil in Hel. inversion Hel.
Qed.

Lemma split_loop_inked (sep : string) (deeper : string -> list string)
  (splits good : list string) (x : string) :
  (forall s, PyStr.inked s = true -> deeper s <> []) ->
  x ∈ good ++ splits -> PyStr.inked x = true ->
  TextSplitter.split_loop cfg sep deeper splits [] good <> [].
Proof.
  intros Hd. revert good. induction splits as [|s splits IH]; intros good Hin Hx.
  - rewrite app_nil_r in Hin. cbn [TextSplitter.split_loop].
    destruct good as [|g good]; [inversion Hin|]. cbn [app].
    eapply merge_splits_inked; eauto.
  - cbn [TextSplitter.split_loop].
    destruct (PyStr.len s <? TextSplitter.chunk_size cfg).
    + apply IH; [|exact Hx]. now rewrite <- app_assoc.
    + rewrite split_loop_final.
      apply elem_of_app in Hin as [Hin|Hin].
      * destruct good as [|g good]; [inversion Hin|]. cbn [app].
        pose proof (merge_splits_inked sep (g :: good) x Hin Hx) as Hm.
        destruct (TextSplitter.merge_splits cfg sep (g :: good)); [congruence|].
        discriminate.
      * apply elem_of_cons in Hin as [->|Hin].
        -- specialize (Hd s Hx). destruct (deeper s); [congruence|].
           intros H. apply (f_equal length) in H.
           rewrite !length_app in H. cbn [length] in H. lia.
        -- intros H. apply app_eq_nil in H as [_ H]. revert H.
           apply IH; [exact Hin|exact Hx].
Qed.

Lemma split_text_inked (fuel : nat) (text : string) (seps : list string) :
  length seps < fuel -> PyStr.inked text = true ->
  TextSplitter._split_text cfg fuel text seps <> [].
Proof.
  revert text seps. induction fuel as [|fuel IH]; intros text seps Hf Ht; [lia|].
  cbn [TextSplitter._split_text].
  destruct (TextSplitter.pick_separator seps text) as [sep rest] eqn:E.
  destruct (pieces_inked text sep Ht) as (p & Hp & Hink).
  eapply split_loop_inked; [|exact Hp|exact Hink].
  intros s Hs. destruct rest as [|r rest]; [discriminate|].
  destruct (pick_separator_shorter _ _ _ _ E) as [|Hlen]; [discriminate|].
  apply IH; [lia|exact Hs].
Qed.

Lemma split_text_not_blank (text : string) :
  PyStr.strip text <> "" -> TextSplitter.split_text cfg text <> [].
Proof.
  intros H. apply split_text_inked; [lia|].
  destruct (PyStr.inked text) eqn:E; [reflexivity|]. apply strip_empty in E. contradiction.
Qed.

End ChunkProperties.

(** ** Overlap of consecutive chunks *)

Section CharacterCuts.
Variable cfg : TextSplitter.Splitter.
Variable separator : string.
Hypothesis overlap_below_size : TextSplitter.chunk_overlap cfg < TextSplitter.chunk_size cfg.
Hypothesis no_separator : PyStr.len separator = 0.

(** With pieces of one character the front of the open chunk is dropped
    down to [chunk_overlap] characters, and no further. *)
Lemma pop_front_chars (current_doc kept : list string) (total tot : nat) :
  TextSplitter.chunk_overlap cfg <= total ->
  Forall (fun p => PyStr.len p = 1) current_doc ->
  total = PyStr.len (PyStr.join separator current_doc) ->
  TextSplitter.pop_front cfg separator 1 current_doc total = (kept, tot) ->
  TextSplitter.chunk_overlap cfg <= tot.
Proof.
  revert total. induction current_doc as [|first rest IH]; intros total Ho Hu Ht.
  - simpl. intros [= <- <-]. exact Ho.
  - cbn [TextSplitter.pop_front]. inversion Hu as [|? ? Hfirst Hrest]; subst.
    destruct (_ || _) eqn:Econd.
    + apply IH; [| exact Hrest |].
      * rewrite Hfirst, no_separator.
        apply orb_true_iff in Econd as [E|E].
        -- apply Nat.ltb_lt in E. destruct (1 <? _); lia.
        -- apply andb_true_iff in E as [E _]. unfold TextSplitter.overflows in E.
           apply Nat.ltb_lt in E. rewrite no_separator in E.
           destruct (1 <? _); destruct (0 <? _); lia.
      * destruct rest as [|second rest].
        -- simpl. rewrite Nat.add_0_r. simpl. lia.
        -- rewrite (join_cons separator) by discriminate. rewrite !len_app.
           cbn [length]. replace (1 <? S (S (length rest))) with true
             by (symmetry; apply Nat.ltb_lt; lia). lia.
    + intros [= <- <-]. exact Ho.
Qed.

End CharacterCuts.

Section Chain.
Variable cfg : TextSplitter.Splitter.
Variable separator : string.

(** Two chunks that follow each other in a merge pass: the second starts
    with pieces kept from the end of the first, which hold at most
    [chunk_overlap] characters, and exactly that many when all pieces are
    single characters joined without separator. *)
Lemma windows_overlap (splits current_doc : list string) (total : nat) :
  total = PyStr.len (PyStr.join separator current_doc) ->
  forall i w1 w2,
    TextSplitter.windows cfg separator splits current_doc total !! i = Some w1 ->
    TextSplitter.windows cfg separator splits current_doc total !! S i = Some w2 ->
    exists kept fresh,
      kept `suffix_of` w1 /\ w2 = kept ++ fresh /\ fresh <> [] /\
      PyStr.len (PyStr.join separator kept) <= TextSplitter.chunk_overlap cfg /\
      (PyStr.len separator = 0 ->
       TextSplitter.chunk_overlap cfg < TextSplitter.chunk_size cfg ->
       Forall (fun p => PyStr.len p = 1) (current_doc ++ splits) ->
       PyStr.len (PyStr.join separator kept) = TextSplitter.chunk_overlap cfg).
Proof.
  revert current_doc total.
  induction splits as [|d splits IH]; intros current_doc total Ht.
  - intros i w1 w2 _ H. destruct i; discriminate.
  - cbn [TextSplitter.windows].
    assert (Hnext : forall cur tot,
      tot = PyStr.len (PyStr.join separator cur) ->
      tot + (PyStr.len d + (if 1 <? length (cur ++ [d]) then PyStr.len separator else 0))
      = PyStr.len (PyStr.join separator (cur ++ [d]))).
    { intros cur tot ->. now rewrite join_snoc. }
    assert (Hstep : forall cur tot,
      cur `suffix_of` current_doc ->
      tot = PyStr.len (PyStr.join separator cur) ->
      forall i w1 w2,
        TextSplitter.windows cfg separator splits (cur ++ [d])
          (tot + (PyStr.len d + (if 1 <? length (cur ++ [d])
                                 then PyStr.len separator else 0))) !! i = Some w1 ->
        TextSplitter.windows cfg separator splits (cur ++ [d])
          (tot + (PyStr.len d + (if 1 <? length (cur ++ [d])
                                 then PyStr.len separator else 0))) !! S i = Some w2 ->
        exists kept fresh,
          kept `suffix_of` w1 /\ w2 = kept ++ fresh /\ fresh <> [] /\
          PyStr.len (PyStr.join separator kept) <= TextSplitter.chunk_overlap cfg /\
          (PyStr.len separator = 0 ->
           TextSplitter.chunk_overlap cfg < TextSplitter.chunk_size cfg ->
           Forall (fun p => PyStr.len p = 1) (current_doc ++ d :: splits) ->
           PyStr.len (PyStr.join separator kept) = TextSplitter.chunk_overlap cfg)).
    { intros cur tot [gone Hgone] Htot i w1 w2 H1 H2.
      destruct (IH (cur ++ [d]) _ (Hnext cur tot Htot) i w1 w2 H1 H2)
        as (kept & fresh & Hs & Hw & Hf & Hle & Hex).
      exists kept, fresh. split; [exact Hs|]. split; [exact Hw|].
      split; [exact Hf|]. split; [exact Hle|].
      intros Hsep Hov Hu. apply Hex; [exact Hsep|exact Hov|].
      rewrite Hgone in Hu. rewrite <- !app_assoc in Hu.
      apply Forall_app in Hu as [_ Hu]. rewrite <- app_assoc. exact Hu. }
    destruct (TextSplitter.overflows cfg separator current_doc total (PyStr.len d)) eqn:Eov.
    + destruct (0 <? length current_doc).
      * destruct (TextSplitter.pop_front _ _ _ _ _) as [cur tot] eqn:Epop.
        destruct (pop_front_spec _ _ _ _ _ _ _ Ht Epop) as (Hs & Hj & Ho).
        cbn [app]. intros [|i] w1 w2.
        -- destruct (windows_head cfg separator splits (cur ++ [d])
             (tot + (PyStr.len d + (if 1 <? length (cur ++ [d])
                                    then PyStr.len separator else 0))))
             as (w & ws & more & E & ->).
           rewrite E. intros [= <-] [= <-].
           exists cur, (d :: more). split; [exact Hs|].
           split; [now rewrite <- app_assoc|]. split; [discriminate|].
           rewrite <- Hj. split; [exact Ho|].
           intros Hsep Hov Hu. apply Forall_app in Hu as [Hcur Hds].
           inversion Hds as [|? ? Hd _]; subst.
           rewrite Hd in Epop, Eov.
           assert (Hlow : TextSplitter.chunk_overlap cfg <=
                          PyStr.len (PyStr.join separator current_doc)).
           { unfold TextSplitter.overflows in Eov. apply Nat.ltb_lt in Eov.
             rewrite Hsep in Eov. destruct (0 <? _); lia. }
           pose proof (pop_front_chars cfg separator Hov Hsep _ _ _ _ Hlow Hcur
                         eq_refl Epop).
           lia.
        -- intros H1 H2.
           change ((current_doc :: ?l) !! S ?j) with (l !! j) in H1, H2.
           now apply (Hstep cur tot Hs Hj i w1 w2).
      * cbn [app]. now apply Hstep.
    + cbn [app]. now apply Hstep.
Qed.

End Chain.

Lemma join_empty_cons (x : string) (l : list string) :
  PyStr.join "" (x :: l) = x +:+ PyStr.join "" l.
Proof. destruct l; [symmetry; apply app_empty_r|reflexivity]. Qed.

Lemma join_empty_app (a b : list string) :
  PyStr.join "" (a ++ b) = PyStr.join "" a +:+ PyStr.join "" b.
Proof.
  induction a as [|x a IH]; [reflexivity|].
  change ((x :: a) ++ b) with (x :: (a ++ b)).
  now rewrite !join_empty_cons, IH, app_assoc_str.
Qed.

(** ** Ingestion of one document *)

Section Ingestion.
Context {B : Backend}.

Lemma split_documents_one (cfg : TextSplitter.Splitter) (text : string)
  (meta : gmap string string) :
  TextSplitter.split_documents cfg [mkDocument text meta] =
  map (fun chunk => mkDocument chunk meta) (TextSplitter.split_text cfg text).
Proof. unfold TextSplitter.split_documents. simpl. apply app_nil_r. Qed.

Lemma map_page_content (meta : gmap string string) (chunks : list string) :
  map page_content (map (fun chunk => mkDocument chunk meta) chunks) = chunks.
Proof. induction chunks as [|c chunks IH]; [reflexivity|]. simpl. now rewrite IH. Qed.

(** C1.  The splitter of a service is the splitter of the chunker module:
    chunk size 810, overlap 150 and the same list of separators.  For a
    content that is not blank, [add_document] splits the content with it
    into at least one chunk, each with the metadata of the upload; when the
    embedding model answers with one vector per chunk, the chunks are put
    behind the entries of the index, in order, and their number is
    returned. *)
Theorem add_document_inserts_chunks (service : QAService) (text : string)
  (meta : gmap string string) (w : World) (embeddings : list Embedding) :
  QAService_init = Ok service ->
  PyStr.strip text <> "" ->
  embed_documents (TextSplitter.split_text splitter text) = Ok embeddings ->
  length embeddings = length (TextSplitter.split_text splitter text) ->
  text_splitter service = splitter /\
  TextSplitter.split_documents (text_splitter service) [mkDocument text meta] =
    map (fun chunk => mkDocument chunk meta) (TextSplitter.split_text splitter text) /\
  0 < length (TextSplitter.split_text splitter text) /\
  add_document service text meta w =
    (Ok (length (TextSplitter.split_text splitter text)),
     mkWorld
       (vector_store w ++
        combine embeddings
          (map (fun chunk => mkDocument chunk meta)
             (TextSplitter.split_text splitter text)))
       (calls w ++ [EmbedDocuments (TextSplitter.split_text splitter text)])).
Proof.
  intros Hinit Htext Hemb Hlen.
  assert (Hs : text_splitter service = splitter).
  { unfold QAService_init in Hinit. destruct build_chain; [|discriminate].
    injection Hinit as <-. reflexivity. }
  split; [exact Hs|]. split; [rewrite Hs; apply split_documents_one|].
  split.
  - pose proof (split_text_not_blank splitter text Htext).
    destruct (TextSplitter.split_text splitter text); [congruence|simpl; lia].
  - unfold add_document, add_documents, bind, call, get_store, set_store, ret.
    rewrite Hs, split_documents_one, map_page_content, Hemb.
    rewrite length_map, Hlen, Nat.eqb_refl. reflexivity.
Qed.

End Ingestion.

(** * The program on concrete inputs *)

(** At [a/b.TXT] the text loader runs, at [a/b.exe] none does. *)
Lemma load_file_dispatch_witness :
  @load_file Demo.backend "a/b.TXT" = @text_loader Demo.backend "a/b.TXT" /\
  @load_file Demo.backend "a/b.exe" = Raise (ValueError "unsupported file format").
Proof.
  split.
  - apply (proj1 (proj2 (proj2 (@load_file_dispatch Demo.backend "a/b.TXT")))).
    reflexivity.
  - apply (proj1 (proj2 (proj2 (proj2 (@load_file_dispatch Demo.backend "a/b.exe"))))).
    change (PyStr.lower (PathLib.suffix "a/b.exe")) with ".exe".
    rewrite !elem_of_cons, elem_of_nil. intuition discriminate.
Defined.

(** C8, as the specification words it, fails on the placeholder document:
    the code puts a space in front of the content. *)
Lemma format_docs_not_as_specified :
  format_docs [dummy_doc] <> SpecWords.format_docs [dummy_doc].
Proof. vm_compute. discriminate. Qed.

(** A short content is shown whole. *)
Lemma excerpt_preview_witness :
  content (source_info dummy_doc) = "Placeholder".
Proof.
  apply (proj1 (excerpt_preview dummy_doc)). vm_compute. lia.
Defined.


(** C3, as the specification words it, fails on a question of three spaces:
    the facade answers it, after a call to the embedding model and a call
    to the chain. *)
Lemma ask_blank_is_answered :
  PyStr.strip "   " = "" /\
  @ask Demo.backend Demo.service "   " Demo.world =
  (Ok ("Answer to:    ", [dummy_doc]),
   @logged Demo.backend Demo.world
     [EmbedQuery "   "; ChainInvoke (format_docs [dummy_doc]) "   "]).
Proof. split; reflexivity. Qed.

(** The HTTP operation rejects the question of three spaces. *)
Lemma ask_question_rejects_blank_witness :
  @ask_question Demo.backend (Some Demo.service) (mkQuestionRequest "   ") Demo.world =
  (Raise (HTTPException 400 "Question cannot be empty"), Demo.world).
Proof.
  apply (proj1 (@ask_question_rejects_blank Demo.backend Demo.service
                  (mkQuestionRequest "   ") Demo.world)).
  reflexivity.
Defined.

(** The start of the demonstration gives its world, which answers a query. *)
Lemma fresh_index_answers_queries_witness :
  @similarity_search_by_vector Demo.backend (vector_store Demo.world) 3 4 = [dummy_doc].
Proof.
  apply (proj1 (proj2 (proj2 (@fresh_index_answers_queries Demo.backend)
                         (Some Demo.service) Demo.world eq_refl))).
Defined.

(** The first question to the demonstration quotes the placeholder. *)
Lemma placeholder_stays_indexed_witness :
  fst (@ask_question Demo.backend (Some Demo.service) (mkQuestionRequest "what?")
         Demo.world) =
  Ok (mkAnswerResponse "Answer to: what?" [mkSource "system" "Placeholder"] "what?").
Proof.
  apply (proj2 (proj2 (proj2 (proj2 (@placeholder_stays_indexed Demo.backend))))
           Demo.service Demo.world (mkQuestionRequest "what?") 5 "Answer to: what?").
  - reflexivity.
  - vm_compute. discriminate.
  - reflexivity.
  - reflexivity.
Defined.

(** C6, as the specification words it, fails on the single file
    [virus.exe]: the answer is an HTTP error, not a body that reports
    zero processed files. *)
Lemma upload_exe_is_an_error :
  @upload_files Demo.backend (Some Demo.service) [mkUploadFile "virus.exe" "MZ"]
    Demo.world =
  (Raise (HTTPException 500
     "Error processing files: 400: No files were processed successfully. Errors: virus.exe: Unsupported file type"),
   Demo.world) /\
  ~ exists response w',
      @upload_files Demo.backend (Some Demo.service) [mkUploadFile "virus.exe" "MZ"]
        Demo.world = (Ok response, w') /\
      files_processed response = 0.
Proof.
  assert (E : @upload_files Demo.backend (Some Demo.service)
                [mkUploadFile "virus.exe" "MZ"] Demo.world =
              (Raise (HTTPException 500
     "Error processing files: 400: No files were processed successfully. Errors: virus.exe: Unsupported file type"),
               Demo.world)) by reflexivity.
  split; [exact E|]. intros (response & w' & H & _). rewrite E in H. discriminate.
Qed.

(** The upload of [virus.exe] alone. *)
Lemma upload_unsupported_only_witness :
  exists status detail,
    @upload_files Demo.backend (Some Demo.service) [mkUploadFile "virus.exe" "MZ"]
      Demo.world = (Raise (HTTPException status detail), Demo.world) /\
    PyStr.contains "virus.exe: Unsupported file type" detail = true.
Proof.
  apply (@upload_unsupported_only Demo.backend Demo.service
           (mkUploadFile "virus.exe" "MZ") Demo.world).
  change (PyStr.lower (PathLib.suffix (filename (mkUploadFile "virus.exe" "MZ"))))
    with ".exe".
  rewrite !elem_of_cons, elem_of_nil. intuition discriminate.
Defined.

(** C4, as the specification words it, fails on three paragraphs of 500
    characters: each paragraph is a chunk of its own, and the second chunk
    does not start with the last 150 characters of the first. *)
Lemma paragraphs_do_not_overlap :
  810 < PyStr.len Demo.three_paragraphs /\
  TextSplitter.split_text splitter Demo.three_paragraphs =
    [Demo.repeat_char "a" 500; Demo.repeat_char "b" 500; Demo.repeat_char "c" 500] /\
  PyStr.drop (500 - 150) (Demo.repeat_char "a" 500)
  <> PyStr.take 150 (Demo.repeat_char "b" 500).
Proof.
  split; [vm_compute; lia|]. split; [vm_compute; reflexivity|].
  vm_compute. discriminate.
Qed.

(** The upload of a short text file to the demonstration. *)
Lemma add_document_inserts_chunks_witness :
  @add_document Demo.backend Demo.service "hello world. bye" {[ "source" := "a.txt" ]}
    Demo.world =
  (Ok 1,
   @mkWorld Demo.backend
     ((11, dummy_doc)
      :: [(16, mkDocument "hello world. bye" {[ "source" := "a.txt" ]})])
     [EmbedDocuments ["Placeholder"]; EmbedDocuments ["hello world. bye"]]).
Proof.
  apply (@add_document_inserts_chunks Demo.backend Demo.service "hello world. bye"
           {[ "source" := "a.txt" ]} Demo.world [16]).
  - reflexivity.
  - vm_compute. discriminate.
  - reflexivity.
  - reflexivity.
Defined.

(** * Further properties of the program *)

Section ApiProperties.
Context {B : Backend}.

(** ** Retrieval *)

Lemma insert_ranked_perm (q : Embedding) (x : Embedding * Document)
  (ranked : list (Embedding * Document)) :
  insert_ranked q x ranked ≡ₚ x :: ranked.
Proof.
  induction ranked as [|y ranked IH]; [reflexivity|]. simpl.
  destruct (nearer q (fst x) (fst y)); [reflexivity|].
  rewrite IH. apply Permutation_swap.
Qed.

Lemma rank_perm (q : Embedding) (index : Index) : rank q index ≡ₚ index.
Proof.
  induction index as [|x index IH]; [reflexivity|]. simpl.
  now rewrite insert_ranked_perm, IH.
Qed.

Lemma search_length (index : Index) (q : Embedding) (k : nat) :
  length (similarity_search_by_vector index q k) = Nat.min k (length index).
Proof.
  unfold similarity_search_by_vector.
  now rewrite length_map, length_take, (Permutation_length (rank_perm q index)).
Qed.

Lemma search_indexed (index : Index) (q : Embedding) (k : nat) (d : Document) :
  d ∈ similarity_search_by_vector index q k -> d ∈ map snd index.
Proof.
  unfold similarity_search_by_vector. intros H.
  apply list_elem_of_fmap in H as (x & -> & Hx).
  apply list_elem_of_fmap. exists x. split; [reflexivity|].
  rewrite <- (rank_perm q index). eapply subseteq_take, Hx.
Qed.

(** X1.  A successful answer echoes the question, leaves the index as it
    was and has made two calls, to the embedding model and then to the
    chain.  Its sources are built from documents of the index, at most
    [k] of them (4 for the service that [QAService.__init__] builds) and
    no more than the index holds. *)
Theorem ask_question_answer (service : QAService) (request : QuestionRequest)
  (w w' : World) (response : AnswerResponse) :
  ask_question (Some service) request w = (Ok response, w') ->
  response_question response = question request /\
  vector_store w' = vector_store w /\
  (exists context, calls w' =
     calls w ++ [EmbedQuery (question request); ChainInvoke context (question request)]) /\
  length (sources response) = Nat.min (top_k (retriever service)) (length (vector_store w)) /\
  Forall (fun s => exists d, d ∈ map snd (vector_store w) /\ s = source_info d)
    (sources response).
Proof.
  unfold ask_question. destruct (PyStr.blank _); [discriminate|].
  unfold try_except, bind, raise, ret. rewrite ask_run.
  destruct (embed_query (question request)) as [v|e]; [|discriminate].
  cbv zeta. destruct (chain_invoke _ _) as [a|e]; [|discriminate].
  intros [= <- <-]. cbn [response_question sources logged vector_store calls].
  split; [reflexivity|]. split; [reflexivity|]. split; [eauto|].
  split; [now rewrite length_map, search_length|].
  apply Forall_forall. intros s Hs. apply list_elem_of_fmap in Hs as (d & -> & Hd).
  exists d. split; [|reflexivity]. eapply search_indexed, Hd.
Qed.

(** X2.  A failed answer is always an [HTTPException], and never a partial
    answer: status 503 without a service, 400 for a blank question (in
    both cases nothing was called), and 500 with the text of the cause when
    the embedding model or the chain raised.  The index is as it was. *)
Theorem ask_question_failure (qa_service : option QAService)
  (request : QuestionRequest) (w w' : World) (e : Exn) :
  ask_question qa_service request w = (Raise e, w') ->
  vector_store w' = vector_store w /\
  ((qa_service = None /\ w' = w /\
    e = HTTPException 503 "QA Service is not initialized. Check your configuration.") \/
   (PyStr.strip (question request) = "" /\ w' = w /\
    e = HTTPException 400 "Question cannot be empty") \/
   (exists cause,
      e = HTTPException 500 ("Error processing question: " +:+ exn_str cause) /\
      (embed_query (question request) = Raise cause \/
       exists context, chain_invoke context (question request) = Raise cause))).
Proof.
  intros H. split.
  { rewrite <- (ask_question_store qa_service request w). now rewrite H. }
  revert H. unfold ask_question. destruct qa_service as [service|].
  - destruct (PyStr.blank _) eqn:Eb.
    + intros [= <- <-]. right. left. apply blank_strip in Eb. auto.
    + unfold try_except, bind, raise, ret. rewrite ask_run.
      destruct (embed_query (question request)) as [v|cause].
      * cbv zeta. destruct (chain_invoke _ _) as [a|cause] eqn:Ec; [discriminate|].
        intros [= <- <-]. right. right. exists cause. split; [reflexivity|]. eauto.
      * intros [= <- <-]. right. right. exists cause. auto.
  - intros [= <- <-]. left. auto.
Qed.

(** ** A document without source *)

(** X3.  The two readers of the metadata fall back differently: a document
    whose metadata has no source is labelled with the empty string in the
    context of the prompt and with [unknown] in the sources of the answer
    and in the output of the command line; a source that is present is
    shown as it is by all three. *)
Theorem source_defaults (d : Document) :
  (metadata d !! "source" = None ->
     format_docs [d] = "Source: " +:+ nl +:+ " " +:+ page_content d /\
     source (source_info d) = "unknown" /\
     print_answer "" [d] = [nl +:+ "Answer:" +:+ nl +:+ " "; nl +:+ "Sources:"; "- unknown"]) /\
  (forall s, metadata d !! "source" = Some s ->
     format_docs [d] = "Source: " +:+ s +:+ nl +:+ " " +:+ page_content d /\
     source (source_info d) = s /\
     print_answer "" [d] = [nl +:+ "Answer:" +:+ nl +:+ " "; nl +:+ "Sources:"; "- " +:+ s]).
Proof.
  split.
  - intros H. unfold format_docs, format_doc, source_info, print_answer, dict_get.
    cbn [map PyStr.join source app]. rewrite H. auto.
  - intros s H. unfold format_docs, format_doc, source_info, print_answer, dict_get.
    cbn [map PyStr.join source app]. rewrite H. auto.
Qed.

(** ** The preview *)

Lemma take_app_exact (a b : string) : PyStr.take (PyStr.len a) (a +:+ b) = a.
Proof.
  induction a as [|c a IH]; [destruct b; reflexivity|].
  rewrite app_cons. simpl. now rewrite IH.
Qed.

(** X4.  A preview never has more than 203 characters and starts like the
    content; previewing a preview changes nothing.  A content of 201 or
    202 characters gets a preview that is longer than the content. *)
Theorem excerpt_bounds (text : string) :
  PyStr.len (excerpt text) <= 203 /\
  PyStr.take 200 (excerpt text) = PyStr.take 200 text /\
  excerpt (excerpt text) = excerpt text /\
  (200 < PyStr.len text -> PyStr.len text < 203 ->
     PyStr.len text < PyStr.len (excerpt text)).
Proof.
  unfold excerpt at 1 2 4 5 6.
  destruct (200 <? PyStr.len text) eqn:E.
  - apply Nat.ltb_lt in E.
    assert (L : PyStr.len (PyStr.take 200 text) = 200) by (rewrite len_take; lia).
    assert (L3 : PyStr.len (PyStr.take 200 text +:+ "...") = 203).
    { rewrite len_app, L. reflexivity. }
    split; [lia|]. split.
    { rewrite <- L at 1. apply take_app_exact. }
    split; [|lia].
    unfold excerpt. rewrite L3. cbn [Nat.ltb Nat.leb]. simpl (200 <? 203).
    rewrite <- L at 1. now rewrite take_app_exact.
  - apply Nat.ltb_ge in E. split; [lia|]. split; [reflexivity|].
    split; [|lia]. unfold excerpt. apply Nat.ltb_ge in E. now rewrite E.
Qed.

End ApiProperties.

Section UploadProperties.
Context {B : Backend}.

(** ** Insertion of one document *)

Lemma add_document_run (service : QAService) (text : string)
  (meta : gmap string string) (w : World) :
  add_document service text meta w =
  match embed_documents (TextSplitter.split_text (text_splitter service) text) with
  | Raise e =>
      (Raise e,
       logged w [EmbedDocuments (TextSplitter.split_text (text_splitter service) text)])
  | Ok embeddings =>
      if length (TextSplitter.split_text (text_splitter service) text) =? length embeddings
      then (Ok (length (TextSplitter.split_text (text_splitter service) text)),
            mkWorld
              (vector_store w ++
               combine embeddings
                 (map (fun chunk => mkDocument chunk meta)
                    (TextSplitter.split_text (text_splitter service) text)))
              (calls w ++
               [EmbedDocuments (TextSplitter.split_text (text_splitter service) text)]))
      else (Raise (ValueError "documents and embeddings expected to be equal length"),
            logged w [EmbedDocuments (TextSplitter.split_text (text_splitter service) text)])
  end.
Proof.
  unfold add_document, add_documents, bind, call, get_store, set_store, ret, raise.
  rewrite split_documents_one, map_page_content, !length_map.
  destruct (embed_documents _) as [embeddings|e]; [|reflexivity].
  destruct (_ =? _); reflexivity.
Qed.

Lemma combine_metadata (meta : gmap string string) (chunks : list string)
  (embeddings : list Embedding) :
  Forall (fun x : Embedding * Document => metadata (snd x) = meta)
    (combine embeddings (map (fun chunk => mkDocument chunk meta) chunks)).
Proof.
  revert chunks. induction embeddings as [|e embeddings IH]; intros [|c chunks];
    simpl; constructor; auto.
Qed.

Lemma combine_contents (meta : gmap string string) (chunks : list string)
  (embeddings : list Embedding) :
  length embeddings = length chunks ->
  map (fun x : Embedding * Document => page_content (snd x))
    (combine embeddings (map (fun chunk => mkDocument chunk meta) chunks)) = chunks.
Proof.
  revert chunks. induction embeddings as [|e embeddings IH]; intros [|c chunks];
    simpl; try discriminate; [reflexivity|].
  intros [= H]. now rewrite IH.
Qed.

(** X5.  [add_document] is all or nothing.  It asks the embedding model
    once, for the chunks of the text.  When it returns a number, the index
    has grown by exactly that many entries, put behind the old ones: the
    chunks in order, each with the metadata that was passed.  When it
    raises, the index is as it was. *)
Theorem add_document_all_or_nothing (service : QAService) (text : string)
  (meta : gmap string string) (w : World) :
  calls (snd (add_document service text meta w)) =
    calls w ++ [EmbedDocuments (TextSplitter.split_text (text_splitter service) text)] /\
  match fst (add_document service text meta w) with
  | Ok n =>
      exists new,
        vector_store (snd (add_document service text meta w)) = vector_store w ++ new /\
        length new = n /\
        map (fun x => page_content (snd x)) new =
          TextSplitter.split_text (text_splitter service) text /\
        Forall (fun x => metadata (snd x) = meta) new
  | Raise _ => vector_store (snd (add_document service text meta w)) = vector_store w
  end.
Proof.
  rewrite add_document_run.
  destruct (embed_documents _) as [embeddings|e]; [|split; reflexivity].
  destruct (_ =? _) eqn:E; [|split; reflexivity].
  apply Nat.eqb_eq in E. split; [reflexivity|]. cbn [fst snd vector_store].
  eexists. split; [reflexivity|]. split; [|split].
  - rewrite length_combine, length_map. lia.
  - apply combine_contents. lia.
  - apply combine_metadata.
Qed.

(** ** One file of an upload *)

(** Every uploaded file ends in exactly one of the two lists.  A file that
    is reported, with a message that starts with its name, leaves the
    index as it was; a file that is processed has put at least one entry
    behind the old ones, and all its entries carry its name as source. *)
Lemma upload_one_cases (service : QAService) (acc : UploadLists) (file : UploadFile)
  (w : World) :
  exists acc' w',
    upload_one service acc file w = (Ok acc', w') /\
    ((processed_files acc' = processed_files acc /\
      (exists msg, errors acc' = errors acc ++ [filename file +:+ ": " +:+ msg]) /\
      vector_store w' = vector_store w) \/
     (processed_files acc' = processed_files acc ++ [filename file] /\
      errors acc' = errors acc /\
      exists new,
        new <> [] /\ vector_store w' = vector_store w ++ new /\
        Forall (fun x => metadata (snd x) = {[ "source" := filename file ]}) new)).
Proof.
  unfold upload_one. destruct (decide _) as [_|_].
  - unfold try_except. destruct (save_upload _ _) as [_|e];
      [|eexists _, _; split; [reflexivity|]; left; cbn; eauto].
    destruct (process_uploaded_file _ _) as [text|e].
    + destruct (negb (PyStr.truthy (PyStr.strip text))) eqn:Eblank.
      * eexists _, _. split; [reflexivity|]. left. cbn. eauto.
      * unfold bind, ret. rewrite add_document_run.
        destruct (embed_documents _) as [embeddings|e];
          [|eexists _, _; split; [reflexivity|]; left; cbn; eauto].
        destruct (_ =? _) eqn:Elen;
          [|eexists _, _; split; [reflexivity|]; left; cbn; eauto].
        apply Nat.eqb_eq in Elen.
        eexists _, _. split; [reflexivity|]. right. cbn.
        split; [reflexivity|]. split; [reflexivity|].
        eexists. split; [|split; [reflexivity|apply combine_metadata]].
        assert (Hne : TextSplitter.split_text (text_splitter service) text <> []).
        { apply split_text_not_blank. intros Hs. rewrite Hs in Eblank. discriminate. }
        intros Hnil. apply (f_equal length) in Hnil.
        rewrite length_combine, length_map, <- Elen, Nat.min_id in Hnil.
        apply nil_length_inv in Hnil. exact (Hne Hnil).
    + eexists _, _. split; [reflexivity|]. left. cbn. eauto.
  - eexists _, _. split; [reflexivity|]. left. cbn.
    split; [reflexivity|]. split; [|reflexivity]. now exists "Unsupported file type".
Qed.

(** X6.  The loop over the uploaded files never raises, whatever the
    parsers and the embedding model do, and it accounts for every file:
    the processed names and the reported errors grow together by the
    number of files, the processed names are some of the names of the
    files, in their order, and the errors come one per file that was not
    processed, in the order of the files too. *)
Theorem upload_loop_accounts (service : QAService) (files : list UploadFile)
  (acc : UploadLists) (w : World) :
  exists names msgs w',
    upload_loop service files acc w =
      (Ok (mkUploadLists (processed_files acc ++ names) (errors acc ++ msgs)), w') /\
    length names + length msgs = length files /\
    names `sublist_of` map filename files.
Proof.
  revert acc w. induction files as [|file files IH]; intros acc w.
  - exists [], [], w. cbn. rewrite !app_nil_r. destruct acc. auto using sublist_nil.
  - cbn [upload_loop]. unfold bind.
    destruct (upload_one_cases service acc file w) as (acc' & w1 & E & Hcases).
    rewrite E. destruct (IH acc' w1) as (names & msgs & w' & E' & Hlen & Hsub).
    rewrite E'. destruct Hcases as [(Hp & (msg & He) & _)|(Hp & He & _)].
    + exists names, ((filename file +:+ ": " +:+ msg) :: msgs), w'.
      rewrite Hp, He, <- app_assoc. cbn. split; [reflexivity|].
      split; [lia|]. now apply sublist_cons.
    + exists (filename file :: names), msgs, w'.
      rewrite Hp, He, <- app_assoc. cbn. split; [reflexivity|].
      split; [lia|]. now apply sublist_skip.
Qed.

(** X7.  What an upload leaves in the index: the entries it adds go behind
    the old ones, every added entry names one of the processed files as its
    source, and every processed file has at least one entry.  An upload
    that processes no file adds nothing. *)
Theorem upload_loop_index (service : QAService) (files : list UploadFile)
  (acc : UploadLists) (w : World) :
  exists names new lists w',
    upload_loop service files acc w = (Ok lists, w') /\
    processed_files lists = processed_files acc ++ names /\
    vector_store w' = vector_store w ++ new /\
    Forall (fun x => exists name,
              name ∈ names /\ metadata (snd x) = {[ "source" := name ]}) new /\
    Forall (fun name => exists x,
              x ∈ new /\ metadata (snd x) = {[ "source" := name ]}) names /\
    (names = [] -> new = []).
Proof.
  revert acc w. induction files as [|file files IH]; intros acc w.
  - exists [], [], acc, w. cbn. rewrite !app_nil_r. auto 10.
  - cbn [upload_loop]. unfold bind.
    destruct (upload_one_cases service acc file w) as (acc' & w1 & E & Hcases).
    rewrite E.
    destruct (IH acc' w1) as (names & new & lists & w' & E' & Hp' & Hs' & Hnew & Hnames & Hnil).
    rewrite E'. destruct Hcases as [(Hp & _ & Hs)|(Hp & _ & first & Hne & Hs & Hmeta)].
    + exists names, new, lists, w'. rewrite Hp', Hp, Hs', Hs. auto 10.
    + exists (filename file :: names), (first ++ new), lists, w'.
      rewrite Hp', Hp, Hs', Hs, <- !app_assoc. cbn.
      split; [reflexivity|]. split; [reflexivity|]. split; [reflexivity|].
      split; [|split].
      * apply Forall_app. split.
        -- eapply Forall_impl; [exact Hmeta|]. intros x Hx.
           exists (filename file). split; [left|exact Hx].
        -- eapply Forall_impl; [exact Hnew|]. intros x (name & Hin & Hx).
           exists name. split; [now right|exact Hx].
      * constructor.
        -- destruct first as [|x first]; [congruence|].
           exists x. split; [left|]. now inversion Hmeta.
        -- eapply Forall_impl; [exact Hnames|]. intros name (x & Hin & Hx).
           exists x. split; [|exact Hx]. apply elem_of_app. now right.
      * discriminate.
Qed.

(** X8.  The outcomes of an upload.  A body is returned only when at least
    one file was processed: its count is the number of the processed
    names, which are names of uploaded files in their order; the key
    [warnings] is absent exactly when every file was processed, and
    otherwise holds one warning per file that was not.  Every failure is an
    [HTTPException], with status 503, 400 or 500. *)
Theorem upload_files_outcomes (qa_service : option QAService)
  (files : list UploadFile) (w : World) :
  match fst (upload_files qa_service files w) with
  | Ok response =>
      0 < files_processed response /\
      files_processed response = length (filenames response) /\
      filenames response `sublist_of` map filename files /\
      match warnings response with
      | None => files_processed response = length files
      | Some ws => ws <> [] /\ files_processed response + length ws = length files
      end
  | Raise e =>
      exists status detail, e = HTTPException status detail /\ status ∈ [503; 400; 500]
  end.
Proof.
  unfold upload_files. destruct qa_service as [service|]; cbn [fst raise].
  2: { eexists _, _. split; [reflexivity|]. rewrite !elem_of_cons. auto. }
  destruct files as [|file files]; cbn [fst raise].
  { eexists _, _. split; [reflexivity|]. rewrite !elem_of_cons. auto. }
  unfold try_except, bind.
  destruct (upload_loop_accounts service (file :: files) (mkUploadLists [] []) w)
    as (names & msgs & w' & E & Hlen & Hsub).
  rewrite E. cbn [processed_files errors app].
  destruct names as [|name names]; cbn [fst raise ret].
  - eexists _, _. split; [reflexivity|]. rewrite !elem_of_cons. auto.
  - cbn [files_processed filenames warnings].
    split; [simpl; lia|]. split; [reflexivity|]. split; [exact Hsub|].
    destruct msgs as [|msg msgs].
    + simpl in *. lia.
    + split; [discriminate|]. simpl in *. lia.
Qed.

(** ** The two lists of accepted suffixes *)

(** X9.  The upload accepts every suffix that the document loader accepts
    and one more: [.doc], which the loader rejects and the upload hands to
    the DOCX parser.  A file that passes the check of the upload is always
    read by one of the three extractors. *)
Theorem upload_suffixes (name data : string) :
  (is_ok (select_loader name) = true ->
     PyStr.lower (PathLib.suffix name) ∈ [".txt"; ".pdf"; ".docx"; ".doc"]) /\
  (PyStr.lower (PathLib.suffix name) = ".doc" ->
     select_loader name = Raise (ValueError "unsupported file format") /\
     process_uploaded_file data name = extract_text_from_docx data) /\
  (PyStr.lower (PathLib.suffix name) ∈ [".txt"; ".pdf"; ".docx"; ".doc"] ->
     is_ok (select_loader name) = false ->
     PyStr.lower (PathLib.suffix name) = ".doc") /\
  (PyStr.lower (PathLib.suffix name) ∈ [".txt"; ".pdf"; ".docx"; ".doc"] ->
     process_uploaded_file data name ∈
       [extract_text_from_txt data; extract_text_from_pdf data;
        extract_text_from_docx data]).
Proof.
  split; [|split; [|split]].
  - unfold select_loader. rewrite !elem_of_cons, !elem_of_nil.
    repeat case_decide; simpl; intuition congruence.
  - intros E. unfold select_loader, process_uploaded_file. rewrite E.
    split; reflexivity.
  - unfold select_loader. rewrite !elem_of_cons, !elem_of_nil.
    repeat case_decide; simpl; intuition congruence.
  - intros Hin. unfold process_uploaded_file.
    destruct (decide (PyStr.lower (PathLib.suffix name) = ".txt")); [left|].
    destruct (decide (PyStr.lower (PathLib.suffix name) = ".pdf")); [right; left|].
    destruct (decide (PyStr.lower (PathLib.suffix name) ∈ [".docx"; ".doc"]))
      as [|Hout]; [right; right; left|].
    exfalso. apply Hout. revert Hin. rewrite !elem_of_cons, !elem_of_nil.
    intuition congruence.
Qed.

End UploadProperties.

Section StartProperties.
Context {B : Backend}.

(** ** The import of the chunker module *)

(** X10.  The chunker module loads the document at its fixed path with the
    DOCX loader, and drops what it has loaded: the list of split documents
    is empty whatever the file holds.  Still the start of the service
    depends on that file: when it cannot be loaded, the start fails with
    the error of the loader, and no model has been called. *)
Theorem chunker_import :
  (forall docs, splitted_docs = Ok docs ->
     docs = [] /\ exists loaded, docx_loader chunker_path = Ok loaded) /\
  (forall e, docx_loader chunker_path = Raise e ->
     splitted_docs = Raise e /\ store_module = Raise e /\ startup = Raise e).
Proof.
  assert (E : load_file chunker_path = docx_loader chunker_path) by reflexivity.
  split.
  - intros docs. unfold splitted_docs. rewrite E.
    destruct (docx_loader chunker_path) as [loaded|e]; [|discriminate].
    intros [= <-]. eauto.
  - intros e He. unfold startup, store_module, splitted_docs. rewrite E, He. auto.
Qed.

(** ** Requests without a service *)

(** X11.  The service is missing after the start exactly when the chain
    could not be built.  Without a service every end point answers with
    status 503, and no sequence of requests changes the index or reaches a
    model. *)
Theorem without_service (w : World) :
  (forall qa_service, startup = Ok (qa_service, w) ->
     (qa_service = None <-> is_ok build_chain = false)) /\
  (forall request, ask_question None request w =
     (Raise (HTTPException 503
               "QA Service is not initialized. Check your configuration."), w)) /\
  (forall files, upload_files None files w =
     (Raise (HTTPException 503 "QA Service is not initialized"), w)) /\
  health_check None w = (Raise (HTTPException 503 "QA Service not initialized"), w) /\
  (forall requests, serve_all None requests w = w).
Proof.
  split; [|split; [|split; [|split]]]; try reflexivity.
  - intros qa_service. unfold startup. destruct store_module; [|discriminate]. cbv zeta.
    unfold QAService_init. destruct build_chain; intros [= <- _]; split;
      try discriminate; reflexivity.
  - intros requests. unfold serve_all.
    induction requests as [|[request|files] requests IH]; [reflexivity| |]; exact IH.
Qed.

(** ** The command line *)

Lemma main_loop_cons (qa : QAService) (q : string) (stdin : list string) (w : World) :
  PyStr.lower q <> "exit" ->
  main_loop qa (q :: stdin) w =
  match ask qa q w with
  | (Raise e, w') => ([prompt], Raise e, w')
  | (Ok (answer, docs), w') =>
      let '(printed, r, w'') := main_loop qa stdin w' in
      (prompt :: print_answer answer docs ++ printed, r, w'')
  end.
Proof. intros H. cbn [main_loop]. destruct (decide _); [contradiction|reflexivity]. Qed.

(** X12.  The loop stops at the first line that is [exit] in any casing:
    what follows that line is never read, so it has no influence on what
    is printed, on the result or on the calls that were made. *)
Theorem main_loop_stops_at_exit (qa : QAService) (before after : list string)
  (x : string) (w : World) :
  Forall (fun q => PyStr.lower q <> "exit") before ->
  PyStr.lower x = "exit" ->
  main_loop qa (before ++ x :: after) w = main_loop qa (before ++ [x]) w.
Proof.
  intros Hb Hx. revert w. induction Hb as [|q before Hq _ IH]; intros w.
  - cbn [app main_loop]. destruct (decide _); [reflexivity|contradiction].
  - cbn [app]. rewrite !main_loop_cons by exact Hq.
    destruct (ask qa q w) as [[[answer docs]|e] w']; [|reflexivity].
    now rewrite IH.
Qed.

(** X13.  The loop ends without error only at a line [exit]: every line
    before it was asked, in order, with two calls each (the embedding of the
    question, then the chain), blank lines included; the index is as it
    was. *)
Theorem main_loop_ends_at_exit (qa : QAService) (stdin printed : list string)
  (w w' : World) :
  main_loop qa stdin w = (printed, Ok tt, w') ->
  exists before x after,
    stdin = before ++ x :: after /\
    PyStr.lower x = "exit" /\
    Forall (fun q => PyStr.lower q <> "exit") before /\
    vector_store w' = vector_store w /\
    (exists contexts,
       length contexts = length before /\
       calls w' = calls w ++
         flat_map (fun qc => [EmbedQuery (fst qc); ChainInvoke (snd qc) (fst qc)])
           (combine before contexts)).
Proof.
  revert printed w. induction stdin as [|q stdin IH]; intros printed w; [discriminate|].
  cbn [main_loop]. destruct (decide (PyStr.lower q = "exit")) as [Hq|Hq].
  - intros [= <- <-]. exists [], q, stdin. cbn.
    split; [reflexivity|]. split; [exact Hq|]. split; [constructor|].
    split; [reflexivity|]. exists []. now rewrite app_nil_r.
  - rewrite ask_run. destruct (embed_query q) as [v|e]; [|discriminate]. cbv zeta.
    destruct (chain_invoke _ q) as [a|e]; [|discriminate].
    destruct (main_loop qa stdin _) as [[printed1 r] w1] eqn:E.
    intros [= <- -> <-].
    destruct (IH _ _ E) as (before & x & after & -> & Hx & Hb & Hs & contexts & Hl & Hc).
    exists (q :: before), x, after. split; [reflexivity|]. split; [exact Hx|].
    split; [now constructor|]. split; [exact Hs|].
    eexists (_ :: contexts). split; [simpl; now rewrite Hl|].
    rewrite Hc. cbn. now rewrite <- app_assoc.
Qed.

End StartProperties.

(** ** Stripped text *)

Lemma len_lstrip (s : string) : PyStr.len (PyStr.lstrip s) <= PyStr.len s.
Proof.
  unfold PyStr.len. induction s as [|c s IH]; [reflexivity|]. simpl.
  destruct (PyStr.isspace c); simpl; lia.
Qed.

Lemma len_rstrip (s : string) : PyStr.len (PyStr.rstrip s) <= PyStr.len s.
Proof.
  unfold PyStr.len. induction s as [|c s IH]; [reflexivity|]. simpl.
  destruct (PyStr.rstrip s); [destruct (PyStr.isspace c)|]; simpl in *; lia.
Qed.

Lemma len_strip (s : string) : PyStr.len (PyStr.strip s) <= PyStr.len s.
Proof.
  unfold PyStr.strip. etransitivity; [apply len_rstrip|apply len_lstrip].
Qed.

Lemma rstrip_rstrip (s : string) : PyStr.rstrip (PyStr.rstrip s) = PyStr.rstrip s.
Proof.
  induction s as [|c s IH]; [reflexivity|]. simpl.
  destruct (PyStr.rstrip s) as [|c' r] eqn:E.
  - destruct (PyStr.isspace c) eqn:Ec; [reflexivity|]. simpl. now rewrite Ec.
  - simpl. simpl in IH. destruct (PyStr.rstrip r) as [|c'' r'] eqn:E'.
    + destruct (PyStr.isspace c'); [discriminate|]. now rewrite IH.
    + now rewrite IH.
Qed.

Lemma lstrip_head (s : string) (c : ascii) (r : string) :
  PyStr.lstrip s = String c r -> PyStr.isspace c = false.
Proof.
  induction s as [|d s IH]; [discriminate|]. simpl.
  destruct (PyStr.isspace d) eqn:E; [exact IH|]. now intros [= <- _].
Qed.

Lemma rstrip_head (c : ascii) (r : string) :
  PyStr.isspace c = false -> exists r', PyStr.rstrip (String c r) = String c r'.
Proof.
  intros H. simpl. destruct (PyStr.rstrip r); [rewrite H|]; eauto.
Qed.

Lemma strip_strip (s : string) : PyStr.strip (PyStr.strip s) = PyStr.strip s.
Proof.
  unfold PyStr.strip. destruct (PyStr.lstrip s) as [|c r] eqn:E; [reflexivity|].
  pose proof (lstrip_head _ _ _ E) as Hc.
  destruct (rstrip_head c r Hc) as [r' Hr]. rewrite Hr.
  cbn [PyStr.lstrip]. rewrite Hc, <- Hr. apply rstrip_rstrip.
Qed.

(** ** Pieces and the text they come from *)

Lemma join_head_app (sep a b : string) (l : list string) :
  PyStr.join sep ((a +:+ b) :: l) = a +:+ PyStr.join sep (b :: l).
Proof.
  destruct l as [|x l]; [reflexivity|].
  rewrite !(join_cons sep) by discriminate. apply app_assoc_str.
Qed.

Lemma join_keep_separator (sep first : string) (others : list string) :
  PyStr.join "" (first :: map (fun s => sep +:+ s) others) =
  PyStr.join sep (first :: others).
Proof.
  revert first. induction others as [|second others IH]; intros first; [reflexivity|].
  cbn [map]. rewrite join_empty_cons, IH, join_head_app.
  now rewrite (join_cons sep first (second :: others)) by discriminate.
Qed.

Lemma join_filter_nonempty (l : list string) :
  PyStr.join "" (filter (fun s => s <> "") l) = PyStr.join "" l.
Proof.
  induction l as [|x l IH]; [reflexivity|].
  rewrite filter_cons. destruct (decide (x <> "")) as [_|Hx].
  - now rewrite !join_empty_cons, IH.
  - rewrite join_empty_cons, IH. destruct x; [reflexivity|]. exfalso. apply Hx. discriminate.
Qed.

(** The pieces of a text, put together again, are the text. *)
Lemma pieces_join (text sep : string) :
  PyStr.join "" (TextSplitter.split_text_with_regex text sep) = text.
Proof.
  unfold TextSplitter.split_text_with_regex. rewrite join_filter_nonempty.
  destruct (PyStr.truthy sep) eqn:Ts.
  - assert (Hsep : sep <> "") by (intros ->; discriminate).
    pose proof (segments_go_join sep 0 text Hsep ltac:(lia)) as Hj.
    change (PyStr.segments_go sep 0 text) with (PyStr.segments sep text) in Hj.
    destruct (PyStr.segments sep text) as [|first others]; [exact Hj|].
    now rewrite join_keep_separator.
  - apply join_chars.
Qed.

Lemma join_piece_len (l : list string) (p : string) :
  p ∈ l -> PyStr.len p <= PyStr.len (PyStr.join "" l).
Proof.
  induction l as [|x l IH]; [intros H; inversion H|].
  rewrite join_empty_cons, len_app. intros H. apply elem_of_cons in H as [->|H]; [lia|].
  specialize (IH H). lia.
Qed.

Section MergeBounds.
Variable cfg : TextSplitter.Splitter.
Variable separator : string.
Hypothesis no_separator : PyStr.len separator = 0.

(** After the front of the open chunk has been dropped, the coming piece
    fits. *)
Lemma pop_front_fits (_len : nat) (current_doc kept : list string) (total tot : nat) :
  _len <= TextSplitter.chunk_size cfg ->
  total = PyStr.len (PyStr.join separator current_doc) ->
  TextSplitter.pop_front cfg separator _len current_doc total = (kept, tot) ->
  tot + _len <= TextSplitter.chunk_size cfg.
Proof.
  intros Hlen. revert total. induction current_doc as [|first rest IH]; intros total Ht.
  - simpl. intros [= <- <-]. rewrite Ht. simpl. exact Hlen.
  - cbn [TextSplitter.pop_front]. destruct (_ || _) eqn:Econd.
    + apply IH. rewrite Ht. destruct rest as [|second rest].
      * simpl. rewrite Nat.add_0_r. simpl. lia.
      * rewrite (join_cons separator) by discriminate. rewrite !len_app.
        cbn [length]. replace (1 <? S (S (length rest))) with true
          by (symmetry; apply Nat.ltb_lt; lia). lia.
    + intros [= <- <-]. apply orb_false_iff in Econd as [_ E].
      unfold TextSplitter.overflows in E. rewrite no_separator in E.
      apply andb_false_iff in E as [E|E].
      * apply Nat.ltb_ge in E. cbn [length] in E. simpl in E. lia.
      * apply Nat.ltb_ge in E. lia.
Qed.

(** No chunk that a merge pass closes is longer than [chunk_size]. *)
Lemma windows_bounded (splits current_doc : list string) (total : nat) :
  Forall (fun p => PyStr.len p < TextSplitter.chunk_size cfg) splits ->
  total = PyStr.len (PyStr.join separator current_doc) ->
  total <= TextSplitter.chunk_size cfg ->
  Forall (fun w => PyStr.len (PyStr.join separator w) <= TextSplitter.chunk_size cfg)
    (TextSplitter.windows cfg separator splits current_doc total).
Proof.
  intros Hs. revert current_doc total.
  induction Hs as [|d splits Hd _ IH]; intros current_doc total Ht Hle.
  - constructor; [now rewrite <- Ht|constructor].
  - cbn [TextSplitter.windows].
    assert (Hnext : forall cur tot,
      tot = PyStr.len (PyStr.join separator cur) ->
      tot + (PyStr.len d + (if 1 <? length (cur ++ [d]) then PyStr.len separator else 0))
      = PyStr.len (PyStr.join separator (cur ++ [d]))).
    { intros cur tot ->. now rewrite join_snoc. }
    assert (Hadd : forall cur tot,
      tot + (PyStr.len d + (if 1 <? length (cur ++ [d]) then PyStr.len separator else 0))
      = tot + PyStr.len d).
    { intros cur tot. rewrite no_separator. destruct (1 <? _); lia. }
    destruct (TextSplitter.overflows cfg separator current_doc total (PyStr.len d)) eqn:Eov.
    + destruct (0 <? length current_doc) eqn:Ecur.
      * destruct (TextSplitter.pop_front _ _ _ _ _) as [cur tot] eqn:Epop.
        destruct (pop_front_spec _ _ _ _ _ _ _ Ht Epop) as (_ & Hj & _).
        pose proof (pop_front_fits _ _ _ _ _ (Nat.lt_le_incl _ _ Hd) Ht Epop) as Hfit.
        cbn [app]. constructor; [now rewrite <- Ht|].
        apply IH; [apply Hnext; assumption|]. rewrite Hadd. exact Hfit.
      * cbn [app]. apply IH; [apply Hnext; assumption|]. rewrite Hadd.
        destruct current_doc; [|discriminate]. simpl in Ht. subst total. simpl. lia.
    + cbn [app]. apply IH; [apply Hnext; assumption|]. rewrite Hadd.
      unfold TextSplitter.overflows in Eov. apply Nat.ltb_ge in Eov. lia.
Qed.

(** While everything fits, nothing is closed. *)
Lemma windows_single (splits current_doc : list string) (total : nat) :
  total = PyStr.len (PyStr.join separator current_doc) ->
  PyStr.len (PyStr.join separator (current_doc ++ splits)) <= TextSplitter.chunk_size cfg ->
  TextSplitter.windows cfg separator splits current_doc total = [current_doc ++ splits].
Proof.
  revert current_doc total. induction splits as [|d splits IH]; intros current_doc total Ht Hle.
  - now rewrite app_nil_r.
  - cbn [TextSplitter.windows].
    assert (Hnext : total + (PyStr.len d + (if 1 <? length (current_doc ++ [d])
                                            then PyStr.len separator else 0))
                    = PyStr.len (PyStr.join separator (current_doc ++ [d]))).
    { rewrite Ht. now rewrite join_snoc. }
    assert (Hmono : forall l,
              PyStr.len (PyStr.join separator (current_doc ++ [d]))
              <= PyStr.len (PyStr.join separator ((current_doc ++ [d]) ++ l))).
    { intros l. induction l as [|s l IHl] using rev_ind; [now rewrite app_nil_r|].
      rewrite app_assoc, (join_snoc separator ((current_doc ++ [d]) ++ l) s).
      eapply Nat.le_trans; [exact IHl|apply Nat.le_add_r]. }
    specialize (Hmono splits).
    replace (current_doc ++ d :: splits) with ((current_doc ++ [d]) ++ splits) in *
      by now rewrite <- app_assoc.
    destruct (TextSplitter.overflows cfg separator current_doc total (PyStr.len d)) eqn:Eov.
    + exfalso. unfold TextSplitter.overflows in Eov. apply Nat.ltb_lt in Eov.
      rewrite no_separator in *. destruct (0 <? _); destruct (1 <? _); lia.
    + cbn [app]. apply IH; [now rewrite Hnext|exact Hle].
Qed.

End MergeBounds.

Section ChunkBounds.
Variable cfg : TextSplitter.Splitter.
Hypothesis room : 1 < TextSplitter.chunk_size cfg.

(** A chunk that is fit for the index: not empty, without whitespace
    around it and within the size. *)
Lemma merge_splits_fit (splits : list string) :
  Forall (fun p => PyStr.len p < TextSplitter.chunk_size cfg) splits ->
  Forall (fun c => c <> "" /\ PyStr.strip c = c /\
                   PyStr.len c <= TextSplitter.chunk_size cfg)
    (TextSplitter.merge_splits cfg "" splits).
Proof.
  intros Hs. unfold TextSplitter.merge_splits. rewrite merge_loop_windows. cbn [app].
  pose proof (windows_bounded cfg "" eq_refl splits [] 0 Hs eq_refl ltac:(lia)) as Hw.
  induction Hw as [|w ws Hlen _ IH]; [constructor|].
  rewrite omap_cons_list. apply Forall_app. split; [|exact IH].
  unfold TextSplitter.join_docs.
  destruct (PyStr.strip (PyStr.join "" w)) as [|c r] eqn:E; [constructor|].
  cbn [PyStr.truthy option_list]. constructor; [|constructor].
  split; [discriminate|]. split.
  - rewrite <- E. apply strip_strip.
  - rewrite <- E. etransitivity; [apply len_strip|exact Hlen].
Qed.

Lemma split_loop_fit (deeper : string -> list string)
  (splits final good : list string) :
  (forall s, s ∈ splits -> TextSplitter.chunk_size cfg <= PyStr.len s ->
     Forall (fun c => c <> "" /\ PyStr.strip c = c /\
                      PyStr.len c <= TextSplitter.chunk_size cfg) (deeper s)) ->
  Forall (fun c => c <> "" /\ PyStr.strip c = c /\
                   PyStr.len c <= TextSplitter.chunk_size cfg) final ->
  Forall (fun p => PyStr.len p < TextSplitter.chunk_size cfg) good ->
  Forall (fun c => c <> "" /\ PyStr.strip c = c /\
                   PyStr.len c <= TextSplitter.chunk_size cfg)
    (TextSplitter.split_loop cfg "" deeper splits final good).
Proof.
  revert final good. induction splits as [|s splits IH]; intros final good Hd Hf Hg.
  - cbn [TextSplitter.split_loop]. destruct good as [|g good]; [exact Hf|].
    apply Forall_app. split; [exact Hf|]. now apply merge_splits_fit.
  - cbn [TextSplitter.split_loop].
    destruct (PyStr.len s <? TextSplitter.chunk_size cfg) eqn:Es.
    + apply Nat.ltb_lt in Es. apply IH; [|exact Hf|].
      * intros s' Hin. apply Hd. now right.
      * apply Forall_app. split; [exact Hg|]. now constructor.
    + apply Nat.ltb_ge in Es. apply IH; [| |constructor].
      * intros s' Hin. apply Hd. now right.
      * apply Forall_app. split.
        -- destruct good as [|g good]; [exact Hf|].
           apply Forall_app. split; [exact Hf|]. now apply merge_splits_fit.
        -- apply Hd; [left|exact Es].
Qed.

Lemma chars_units (text : string) :
  Forall (fun p => PyStr.len p = 1) (PyStr.chars text).
Proof. induction text; constructor; auto. Qed.

Lemma split_text_fit (fuel : nat) (text : string) (seps : list string) :
  "" ∈ seps -> length seps < fuel ->
  Forall (fun c => c <> "" /\ PyStr.strip c = c /\
                   PyStr.len c <= TextSplitter.chunk_size cfg)
    (TextSplitter._split_text cfg fuel text seps).
Proof.
  revert text seps. induction fuel as [|fuel IH]; intros text seps Hin Hf; [lia|].
  cbn [TextSplitter._split_text]. unfold TextSplitter.pick_separator.
  destruct (pick_from_empty_sep seps text Hin) as [[sep rest] E]. rewrite E.
  destruct (pick_from_first _ _ _ _ E) as (before & after & -> & Hb & Hr).
  apply split_loop_fit; [|constructor|constructor].
  intros s Hs Hlong.
  destruct Hr as [[-> ->]|(Ht & _ & ->)].
  - exfalso. unfold TextSplitter.split_text_with_regex in Hs. cbn [PyStr.truthy] in Hs.
    apply list_elem_of_filter in Hs as [_ Hs].
    pose proof (chars_units text) as Hu. rewrite Forall_forall in Hu.
    specialize (Hu s Hs). lia.
  - assert (Hafter : "" ∈ after).
    { apply elem_of_app in Hin as [Hin|Hin].
      - rewrite Forall_forall in Hb. destruct (Hb _ Hin) as [Hemp _]. discriminate.
      - apply elem_of_cons in Hin as [<-|Hin]; [discriminate|exact Hin]. }
    destruct after as [|a after]; [inversion Hafter|].
    apply IH; [exact Hafter|]. rewrite length_app in Hf. cbn [length] in *. lia.
Qed.

End ChunkBounds.

Section ShortText.
Variable cfg : TextSplitter.Splitter.

(** A text that is shorter than [chunk_size] is one chunk, the stripped
    text, or no chunk at all when it is blank. *)
Lemma split_text_whole (text : string) :
  PyStr.len text < TextSplitter.chunk_size cfg ->
  TextSplitter.split_text cfg text =
  option_list (TextSplitter.join_docs [text] "").
Proof.
  intros Hlen.
  set (pieces := TextSplitter.split_text_with_regex text
         (fst (TextSplitter.pick_separator (TextSplitter.separators cfg) text))).
  assert (Hj : PyStr.join "" pieces = text) by apply pieces_join.
  assert (Hshort : Forall (fun p => PyStr.len p < TextSplitter.chunk_size cfg) pieces).
  { apply Forall_forall. intros p Hp. pose proof (join_piece_len pieces p Hp). rewrite Hj in *. lia. }
  rewrite split_text_short by exact Hshort. fold pieces.
  unfold TextSplitter.merge_splits. rewrite merge_loop_windows. cbn [app].
  rewrite (windows_single cfg "" eq_refl pieces [] 0 eq_refl)
    by (cbn [app]; rewrite Hj; lia).
  cbn [app]. rewrite omap_cons_list. cbn [omap list_omap]. rewrite app_nil_r.
  unfold TextSplitter.join_docs. now rewrite Hj.
Qed.

End ShortText.

Section IngestionBounds.
Context {B : Backend}.

Lemma init_splitter (service : QAService) :
  QAService_init = Ok service -> text_splitter service = splitter.
Proof.
  unfold QAService_init. destruct build_chain; [|discriminate]. now intros [= <-].
Qed.

(** X14.  Whatever [add_document] puts into the index is fit for it: no
    chunk is empty, none has whitespace around it, and none is longer than
    810 characters. *)
Theorem add_document_chunks_fit (service : QAService) (text : string)
  (meta : gmap string string) (w w' : World) (n : nat) :
  QAService_init = Ok service ->
  add_document service text meta w = (Ok n, w') ->
  exists new,
    vector_store w' = vector_store w ++ new /\
    length new = n /\
    Forall (fun x => page_content (snd x) <> "" /\
                     PyStr.strip (page_content (snd x)) = page_content (snd x) /\
                     PyStr.len (page_content (snd x)) <= 810) new.
Proof.
  intros Hinit. rewrite add_document_run, (init_splitter _ Hinit).
  destruct (embed_documents _) as [embeddings|e]; [|discriminate].
  destruct (_ =? _) eqn:E; [|discriminate]. apply Nat.eqb_eq in E.
  intros [= <- <-]. cbn [vector_store]. eexists. split; [reflexivity|].
  split; [rewrite length_combine, length_map; lia|].
  pose proof (split_text_fit splitter ltac:(simpl; lia)
                (S (length (TextSplitter.separators splitter))) text
                (TextSplitter.separators splitter)) as Hfit.
  fold (TextSplitter.split_text splitter text) in Hfit.
  specialize (Hfit ltac:(cbn; rewrite !elem_of_cons; auto 10) ltac:(lia)).
  revert embeddings E. induction Hfit as [|c chunks Hc _ IH]; intros [|e embeddings] E;
    try discriminate; cbn [map combine]; constructor.
  - exact Hc.
  - apply IH. simpl in E. lia.
Qed.

(** X15.  A content that is not blank and shorter than 810 characters goes
    into the index as one chunk: the content without the whitespace around
    it, whatever separators it contains. *)
Theorem add_document_short_text (service : QAService) (text : string)
  (meta : gmap string string) (w : World) (e : Embedding) :
  QAService_init = Ok service ->
  PyStr.len text < 810 ->
  PyStr.strip text <> "" ->
  embed_documents [PyStr.strip text] = Ok [e] ->
  add_document service text meta w =
  (Ok 1,
   mkWorld (vector_store w ++ [(e, mkDocument (PyStr.strip text) meta)])
     (calls w ++ [EmbedDocuments [PyStr.strip text]])).
Proof.
  intros Hinit Hlen Hink Hemb. rewrite add_document_run, (init_splitter _ Hinit).
  rewrite (split_text_whole splitter text Hlen).
  assert (Hj : TextSplitter.join_docs [text] "" = Some (PyStr.strip text)).
  { unfold TextSplitter.join_docs. cbn [PyStr.join].
    destruct (PyStr.strip text); [congruence|reflexivity]. }
  rewrite Hj. change (option_list (Some (PyStr.strip text))) with [PyStr.strip text].
  rewrite Hemb. reflexivity.
Qed.

End IngestionBounds.

(** ** Parts of a text *)

Lemma contains_inv (p s : string) :
  PyStr.contains p s = true -> exists a b, s = a +:+ p +:+ b.
Proof.
  induction s as [|c s IH]; simpl; intros H.
  - rewrite orb_false_r in H. apply startswith_inv in H as [r ->]. now exists "", r.
  - apply orb_true_iff in H as [H|H].
    + apply startswith_inv in H as [r ->]. now exists "", r.
    + destruct (IH H) as (a & b & ->). now exists (String c a), b.
Qed.

Lemma contains_part (a p b : string) : PyStr.contains p (a +:+ p +:+ b) = true.
Proof. apply contains_prepend, contains_here, startswith_app. Qed.

Lemma contains_trans (a b c : string) :
  PyStr.contains a b = true -> PyStr.contains b c = true -> PyStr.contains a c = true.
Proof.
  intros Hab Hbc. apply contains_inv in Hab as (x & y & ->).
  apply contains_inv in Hbc as (u & v & ->).
  rewrite !app_assoc_str, <- (app_assoc_str u x). apply contains_part.
Qed.

Lemma lstrip_part (s : string) : exists a, s = a +:+ PyStr.lstrip s.
Proof.
  induction s as [|c s [a IH]]; [now exists ""|]. simpl.
  destruct (PyStr.isspace c); [|now exists ""].
  exists (String c a). rewrite app_cons. now f_equal.
Qed.

Lemma rstrip_part (s : string) : exists b, s = PyStr.rstrip s +:+ b.
Proof.
  induction s as [|c s [b IH]]; [now exists ""|]. simpl.
  destruct (PyStr.rstrip s) as [|c' r] eqn:E.
  - destruct (PyStr.isspace c).
    + now exists (String c s).
    + exists s. reflexivity.
  - exists b. rewrite app_cons. now f_equal.
Qed.

Lemma contains_strip (s : string) : PyStr.contains (PyStr.strip s) s = true.
Proof.
  unfold PyStr.strip. destruct (lstrip_part s) as [a Ha].
  destruct (rstrip_part (PyStr.lstrip s)) as [b Hb].
  rewrite Ha at 2. rewrite Hb at 2. apply contains_part.
Qed.

Lemma contains_join (a w b : list string) :
  PyStr.contains (PyStr.join "" w) (PyStr.join "" (a ++ w ++ b)) = true.
Proof. rewrite !join_empty_app. apply contains_part. Qed.

Section Parts.
Variable cfg : TextSplitter.Splitter.

(** A chunk that a merge pass closes is a run of pieces that follow each
    other. *)
Lemma windows_runs (separator : string) (splits current_doc : list string)
  (total : nat) (w : list string) :
  w ∈ TextSplitter.windows cfg separator splits current_doc total ->
  exists a b, current_doc ++ splits = a ++ w ++ b.
Proof.
  revert current_doc total. induction splits as [|d splits IH]; intros current_doc total.
  - cbn [TextSplitter.windows]. intros H. apply list_elem_of_singleton in H as ->.
    exists [], []. now rewrite !app_nil_r.
  - cbn [TextSplitter.windows].
    assert (Hgo : forall gone cur tot,
      current_doc = gone ++ cur ->
      w ∈ TextSplitter.windows cfg separator splits (cur ++ [d]) tot ->
      exists a b, current_doc ++ d :: splits = a ++ w ++ b).
    { intros gone cur tot -> H. destruct (IH _ _ H) as (a & b & E).
      exists (gone ++ a), b. rewrite <- !app_assoc. f_equal.
      rewrite <- E. now rewrite <- app_assoc. }
    destruct (TextSplitter.overflows cfg separator current_doc total (PyStr.len d)).
    + destruct (0 <? length current_doc).
      * destruct (TextSplitter.pop_front _ _ _ _ _) as [cur tot] eqn:Epop.
        assert (Hs : cur `suffix_of` current_doc).
        { clear -Epop. revert total Epop.
          induction current_doc as [|first rest IHc]; intros total; simpl.
          - now intros [= <- _].
          - destruct (_ || _).
            + intros H. apply suffix_cons_r. eapply IHc, H.
            + now intros [= <- _]. }
        destruct Hs as [gone Hgone]. cbn [app]. intros H.
        apply elem_of_cons in H as [->|H].
        -- exists [], (d :: splits). reflexivity.
        -- eapply Hgo; eauto.
      * cbn [app]. apply (Hgo [] current_doc). reflexivity.
    + cbn [app]. apply (Hgo [] current_doc). reflexivity.
Qed.

Lemma merge_splits_parts (splits : list string) :
  Forall (fun c => PyStr.contains c (PyStr.join "" splits) = true)
    (TextSplitter.merge_splits cfg "" splits).
Proof.
  unfold TextSplitter.merge_splits. rewrite merge_loop_windows. cbn [app].
  apply Forall_forall. intros c Hc. apply list_elem_of_omap in Hc as (w & Hw & Hj).
  destruct (windows_runs _ _ _ _ _ Hw) as (a & b & E). cbn [app] in E. rewrite E.
  unfold TextSplitter.join_docs in Hj.
  destruct (PyStr.truthy _); [|discriminate]. injection Hj as <-.
  eapply contains_trans; [apply contains_strip|apply contains_join].
Qed.

Lemma split_loop_parts (text : string) (deeper : string -> list string)
  (splits final good : list string) :
  (forall s, Forall (fun c => PyStr.contains c s = true) (deeper s)) ->
  Forall (fun c => PyStr.contains c text = true) final ->
  PyStr.contains (PyStr.join "" (good ++ splits)) text = true ->
  Forall (fun c => PyStr.contains c text = true)
    (TextSplitter.split_loop cfg "" deeper splits final good).
Proof.
  intros Hd. revert final good. induction splits as [|s splits IH]; intros final good Hf Ht.
  - cbn [TextSplitter.split_loop]. rewrite app_nil_r in Ht.
    destruct good as [|g good]; [exact Hf|]. apply Forall_app. split; [exact Hf|].
    eapply Forall_impl; [apply merge_splits_parts|]. intros c Hc.
    eapply contains_trans; [exact Hc|exact Ht].
  - cbn [TextSplitter.split_loop].
    destruct (PyStr.len s <? TextSplitter.chunk_size cfg).
    + apply IH; [exact Hf|]. now rewrite <- app_assoc.
    + apply IH.
      * apply Forall_app. split.
        -- destruct good as [|g good]; [exact Hf|]. apply Forall_app. split; [exact Hf|].
           eapply Forall_impl; [apply merge_splits_parts|]. intros c Hc.
           eapply contains_trans; [exact Hc|].
           eapply contains_trans; [|exact Ht].
           apply (contains_join [] (g :: good) (s :: splits)).
        -- eapply Forall_impl; [apply Hd|]. intros c Hc.
           eapply contains_trans; [exact Hc|].
           eapply contains_trans; [|exact Ht].
           replace s with (PyStr.join "" [s]) at 1 by reflexivity.
           apply (contains_join good [s] splits).
      * eapply contains_trans; [|exact Ht]. cbn [app].
        replace (good ++ s :: splits) with ((good ++ [s]) ++ splits ++ [])
          by (rewrite app_nil_r, <- app_assoc; reflexivity).
        apply contains_join.
Qed.

Lemma split_text_parts (fuel : nat) (text : string) (seps : list string) :
  Forall (fun c => PyStr.contains c text = true)
    (TextSplitter._split_text cfg fuel text seps).
Proof.
  revert text seps. induction fuel as [|fuel IH]; intros text seps; [constructor|].
  cbn [TextSplitter._split_text].
  destruct (TextSplitter.pick_separator seps text) as [sep rest].
  apply split_loop_parts; [|constructor|].
  - intros s. destruct rest; [|apply IH]. constructor; [apply contains_self|constructor].
  - cbn [app]. rewrite pieces_join. apply contains_self.
Qed.

End Parts.

Section IndexProperties.
Context {B : Backend}.

(** X16.  Nothing is invented: every chunk that [add_document] puts into the
    index is a part of the text it was given, character by character. *)
Theorem add_document_chunks_from_text (service : QAService) (text : string)
  (meta : gmap string string) (w w' : World) (n : nat) :
  add_document service text meta w = (Ok n, w') ->
  exists new,
    vector_store w' = vector_store w ++ new /\
    Forall (fun x => PyStr.contains (page_content (snd x)) text = true) new.
Proof.
  rewrite add_document_run.
  destruct (embed_documents _) as [embeddings|e]; [|discriminate].
  destruct (_ =? _) eqn:E; [|discriminate].
  intros [= <- <-]. cbn [vector_store]. eexists. split; [reflexivity|].
  pose proof (split_text_parts (text_splitter service)
                (S (length (TextSplitter.separators (text_splitter service)))) text
                (TextSplitter.separators (text_splitter service))) as Hparts.
  fold (TextSplitter.split_text (text_splitter service) text) in Hparts.
  clear E. revert embeddings.
  induction Hparts as [|c chunks Hc _ IH]; intros [|e embeddings];
    cbn [map combine]; constructor; auto.
Qed.

(** X17.  The index of a running service is append-only: an entry stays at
    its position through every sequence of questions and uploads, and
    questions alone leave the index as it is. *)
Theorem index_append_only (qa_service : option QAService) (requests : list Request)
  (w : World) :
  (forall i entry, vector_store w !! i = Some entry ->
     vector_store (serve_all qa_service requests w) !! i = Some entry) /\
  length (vector_store w) <= length (vector_store (serve_all qa_service requests w)) /\
  (Forall (fun r => exists request, r = AskRequest request) requests ->
     vector_store (serve_all qa_service requests w) = vector_store w).
Proof.
  pose proof (serve_all_store qa_service requests w) as [later E].
  split; [|split].
  - intros i entry H. rewrite E. now apply lookup_app_l_Some.
  - rewrite E, length_app. lia.
  - clear. intros H. revert w. unfold serve_all.
    induction H as [|r requests [request ->] _ IH]; intros w; [reflexivity|].
    cbn [fold_left serve]. rewrite IH. apply ask_question_store.
Qed.

(** X18.  While the index holds no more entries than the retriever asks
    for, an answer cites the whole index: its sources are the previews of
    all indexed documents, in the order of the ranking. *)
Theorem small_index_cited_whole (service : QAService) (request : QuestionRequest)
  (w w' : World) (response : AnswerResponse) :
  length (vector_store w) <= top_k (retriever service) ->
  ask_question (Some service) request w = (Ok response, w') ->
  sources response ≡ₚ map (fun x => source_info (snd x)) (vector_store w).
Proof.
  intros Hk. unfold ask_question. destruct (PyStr.blank _); [discriminate|].
  unfold try_except, bind, raise, ret. rewrite ask_run.
  destruct (embed_query (question request)) as [v|e]; [|discriminate].
  cbv zeta. destruct (chain_invoke _ _) as [a|e]; [|discriminate].
  intros [= <- <-]. cbn [sources]. unfold similarity_search_by_vector.
  rewrite take_ge by (rewrite (Permutation_length (rank_perm v (vector_store w))); lia).
  rewrite <- list_fmap_compose. apply fmap_Permutation, rank_perm.
Qed.

End IndexProperties.

Section RoundTrip.
Context {B : Backend}.

(** A file that cannot be saved is reported with the text of the
    exception: its text is not extracted and the world stays as it was. *)
Lemma upload_one_unsaved (service : QAService) (acc : UploadLists) (file : UploadFile)
  (w : World) (e : Exn) :
  PyStr.lower (PathLib.suffix (filename file)) ∈ [".txt"; ".pdf"; ".docx"; ".doc"] ->
  save_upload (filename file) (file_bytes file) = Raise e ->
  upload_one service acc file w =
  (Ok (mkUploadLists (processed_files acc)
         (errors acc ++ [filename file +:+ ": " +:+ exn_str e])), w).
Proof.
  intros Hext Hsave. unfold upload_one.
  destruct (decide _) as [_|Hout]; [|contradiction].
  now rewrite Hsave.
Qed.

Lemma upload_one_text (service : QAService) (file : UploadFile) (text : string)
  (w : World) (e : Embedding) :
  text_splitter service = splitter ->
  PyStr.lower (PathLib.suffix (filename file)) = ".txt" ->
  save_upload (filename file) (file_bytes file) = Ok tt ->
  txt_text (file_bytes file) = Ok text ->
  PyStr.len text < 810 ->
  PyStr.strip text <> "" ->
  embed_documents [PyStr.strip text] = Ok [e] ->
  upload_one service (mkUploadLists [] []) file w =
  (Ok (mkUploadLists [filename file] []),
   mkWorld
     (vector_store w ++
      [(e, mkDocument (PyStr.strip text) {[ "source" := filename file ]})])
     (calls w ++ [EmbedDocuments [PyStr.strip text]])).
Proof.
  intros Hs Hext Hsave Htxt Hlen Hink Hemb. unfold upload_one. rewrite Hext.
  destruct (decide _) as [_|Hout].
  2: { exfalso. apply Hout. rewrite !elem_of_cons. auto. }
  rewrite Hsave. unfold process_uploaded_file, extract_text_from_txt. rewrite Hext.
  destruct (decide (".txt" = ".txt")); [|congruence]. rewrite Htxt.
  unfold try_except, bind, ret.
  destruct (PyStr.strip text) as [|c r] eqn:E; [congruence|].
  cbn [PyStr.truthy negb]. rewrite add_document_run, Hs.
  rewrite (split_text_whole splitter text Hlen).
  assert (Hj : TextSplitter.join_docs [text] "" = Some (String c r)).
  { unfold TextSplitter.join_docs. cbn [PyStr.join]. now rewrite E. }
  rewrite Hj. change (option_list (Some (String c r))) with [String c r].
  rewrite Hemb. reflexivity.
Qed.

(** X19.  Round trip on a freshly started service: after the upload of one
    text file that could be saved to the temporary directory and whose
    content is not blank and shorter than 810 characters, the upload
    reports one processed file without warnings, and every answer that
    follows cites the file, with its name as source and the stripped
    content as preview, next to the placeholder. *)
Theorem upload_then_ask_cites_file (service : QAService) (w w' : World)
  (file : UploadFile) (text : string) (e : Embedding)
  (request : QuestionRequest) (response : AnswerResponse) :
  startup = Ok (Some service, w) ->
  PyStr.lower (PathLib.suffix (filename file)) = ".txt" ->
  save_upload (filename file) (file_bytes file) = Ok tt ->
  txt_text (file_bytes file) = Ok text ->
  PyStr.len text < 810 ->
  PyStr.strip text <> "" ->
  embed_documents [PyStr.strip text] = Ok [e] ->
  ask_question (Some service) request (snd (upload_files (Some service) [file] w)) =
    (Ok response, w') ->
  fst (upload_files (Some service) [file] w) =
    Ok (mkUploadResponse "Files processed successfully" 1 [filename file] None) /\
  mkSource (filename file) (excerpt (PyStr.strip text)) ∈ sources response /\
  mkSource "system" "Placeholder" ∈ sources response /\
  length (sources response) = 2.
Proof.
  intros Hstart Hext Hsave Htxt Hlen Hink Hemb.
  destruct (startup_inv _ _ Hstart) as (e0 & -> & [|[= ->]]); [discriminate|].
  assert (Hup : upload_files (Some (mkQAService (get_retriver 4) splitter)) [file]
                  (mkWorld [(e0, dummy_doc)] [EmbedDocuments ["Placeholder"]]) =
                (Ok (mkUploadResponse "Files processed successfully" 1 [filename file] None),
                 mkWorld
                   [(e0, dummy_doc);
                    (e, mkDocument (PyStr.strip text) {[ "source" := filename file ]})]
                   [EmbedDocuments ["Placeholder"]; EmbedDocuments [PyStr.strip text]])).
  { unfold upload_files, try_except, bind. cbn [upload_loop]. unfold bind.
    rewrite (upload_one_text (mkQAService (get_retriver 4) splitter) file text _ e
               eq_refl Hext Hsave Htxt Hlen Hink Hemb).
    reflexivity. }
  rewrite Hup. cbn [fst snd]. intros Hask. split; [reflexivity|].
  revert Hask. unfold ask_question. destruct (PyStr.blank _); [discriminate|].
  unfold try_except, bind, raise, ret. rewrite ask_run.
  destruct (embed_query (question request)) as [v|x]; [|discriminate].
  cbv zeta. destruct (chain_invoke _ _) as [a|x]; [|discriminate].
  intros [= <- <-]. cbn [sources vector_store retriever top_k get_retriver].
  unfold similarity_search_by_vector.
  pose proof (rank_perm v
    [(e0, dummy_doc); (e, mkDocument (PyStr.strip text) {[ "source" := filename file ]})])
    as Hperm.
  rewrite take_ge by (rewrite (Permutation_length Hperm); simpl; lia).
  rewrite <- list_fmap_compose.
  assert (Hsrc : forall x, x ∈ [(e0, dummy_doc);
                   (e, mkDocument (PyStr.strip text) {[ "source" := filename file ]})] ->
                 (source_info ∘ snd) x ∈
                 (source_info ∘ snd) <$> rank v [(e0, dummy_doc);
                   (e, mkDocument (PyStr.strip text) {[ "source" := filename file ]})]).
  { intros x Hx. apply list_elem_of_fmap. exists x. split; [reflexivity|].
    now rewrite Hperm. }
  split; [|split].
  - replace (mkSource (filename file) (excerpt (PyStr.strip text)))
      with ((source_info ∘ snd)
              (e, mkDocument (PyStr.strip text) {[ "source" := filename file ]})).
    + apply Hsrc. right. left.
    + unfold source_info, dict_get. cbn [compose snd metadata page_content].
      now rewrite lookup_singleton_eq.
  - apply (Hsrc (e0, dummy_doc)). left.
  - rewrite length_fmap, (Permutation_length Hperm). reflexivity.
Qed.

End RoundTrip.

(** ** Chunks of a text cut between characters *)

Lemma spaceless_app (a b : string) :
  PyStr.spaceless (a +:+ b) = PyStr.spaceless a && PyStr.spaceless b.
Proof.
  induction a as [|c a IH]; [reflexivity|].
  change (String c a +:+ b) with (String c (a +:+ b)).
  cbn [PyStr.spaceless]. now rewrite IH, andb_assoc.
Qed.

(** Nothing is stripped from a string without whitespace. *)
Lemma strip_spaceless (s : string) : PyStr.spaceless s = true -> PyStr.strip s = s.
Proof.
  intros H. unfold PyStr.strip.
  assert (Hl : PyStr.lstrip s = s).
  { destruct s as [|c s]; [reflexivity|]. cbn [PyStr.spaceless] in H.
    apply andb_true_iff in H as [H _]. cbn [PyStr.lstrip].
    now destruct (PyStr.isspace c). }
  rewrite Hl. clear Hl. induction s as [|c s IH]; [reflexivity|].
  cbn [PyStr.spaceless] in H. apply andb_true_iff in H as [Hc Hs].
  cbn [PyStr.rstrip]. rewrite (IH Hs).
  destruct s; [|reflexivity]. now destruct (PyStr.isspace c).
Qed.

(** A separator that starts with a whitespace character does not occur in
    it. *)
Lemma contains_spaceless (c : ascii) (p text : string) :
  PyStr.isspace c = true -> PyStr.spaceless text = true ->
  PyStr.contains (String c p) text = false.
Proof.
  intros Hc. induction text as [|b text IH]; intros H; [reflexivity|].
  cbn [PyStr.spaceless] in H. apply andb_true_iff in H as [Hb Hs].
  cbn [PyStr.contains PyStr.startswith]. rewrite (IH Hs).
  destruct (ascii_dec c b) as [->|_]; [|reflexivity].
  rewrite Hc in Hb. discriminate.
Qed.

(** Of the separators of the chunker only the empty one is left for a
    text without whitespace and full stop. *)
Lemma pick_separator_spaceless (text : string) :
  PyStr.spaceless text = true -> PyStr.contains "." text = false ->
  TextSplitter.pick_separator (TextSplitter.separators splitter) text = ("", []).
Proof.
  intros Hs Hdot. unfold TextSplitter.pick_separator, splitter.
  cbn [TextSplitter.separators].
  change (nl +:+ nl) with (String "010"%char nl). unfold nl.
  cbn [TextSplitter.pick_from PyStr.truthy negb].
  rewrite Hdot, !contains_spaceless by (exact Hs || reflexivity). reflexivity.
Qed.

Lemma filter_chars (text : string) :
  filter (fun s => s <> "") (PyStr.chars text) = PyStr.chars text.
Proof.
  induction text as [|c text IH]; [reflexivity|].
  cbn [PyStr.chars]. rewrite filter_cons, IH.
  destruct (decide _) as [_|H]; [reflexivity|]. exfalso. apply H. discriminate.
Qed.

(** Only the merge of no piece at all closes an empty chunk. *)
Lemma windows_nonempty (cfg : TextSplitter.Splitter) (separator : string)
  (splits current_doc : list string) (total : nat) :
  current_doc ++ splits <> [] ->
  Forall (fun w => w <> []) (TextSplitter.windows cfg separator splits current_doc total).
Proof.
  revert current_doc total. induction splits as [|d splits IH]; intros current_doc total H.
  - rewrite app_nil_r in H. cbn. constructor; [exact H|constructor].
  - cbn [TextSplitter.windows].
    assert (Hnext : forall cur tot, Forall (fun w => w <> [])
              (TextSplitter.windows cfg separator splits (cur ++ [d]) tot)).
    { intros cur tot. apply IH. rewrite <- app_assoc. now destruct cur. }
    destruct (TextSplitter.overflows _ _ _ _ _); [|apply Hnext].
    destruct (0 <? length current_doc) eqn:E; [|apply Hnext].
    destruct (TextSplitter.pop_front _ _ _ _ _) as [cur tot].
    constructor; [|apply Hnext].
    apply Nat.ltb_lt in E. intros ->. simpl in E. lia.
Qed.

Lemma len_join_units (l : list string) :
  Forall (fun p => PyStr.len p = 1) l -> PyStr.len (PyStr.join "" l) = length l.
Proof.
  induction 1 as [|x l Hx _ IH]; [reflexivity|].
  rewrite join_empty_cons, len_app, Hx, IH. reflexivity.
Qed.

Lemma omap_total {A C} (f : A -> option C) (g : A -> C) (l : list A) :
  Forall (fun x => f x = Some (g x)) l -> omap f l = map g l.
Proof.
  induction 1 as [|x l Hx _ IH]; [reflexivity|].
  rewrite omap_cons_list, Hx, IH. reflexivity.
Qed.

(** The chunks of a text without whitespace and full stop are the chunks
    closed by one merge pass over its characters: none of them is dropped
    and nothing is stripped from them. *)
Lemma split_text_spaceless (text : string) :
  text <> "" -> PyStr.spaceless text = true -> PyStr.contains "." text = false ->
  TextSplitter.split_text splitter text =
  map (PyStr.join "") (TextSplitter.windows splitter "" (PyStr.chars text) [] 0) /\
  Forall (fun w => Forall (fun p => PyStr.len p = 1) w)
    (TextSplitter.windows splitter "" (PyStr.chars text) [] 0).
Proof.
  intros Hink Hs Hdot.
  assert (Hunits : Forall (fun w => Forall (fun p => PyStr.len p = 1) w)
            (TextSplitter.windows splitter "" (PyStr.chars text) [] 0)).
  { apply Forall_forall. intros w Hw.
    destruct (windows_runs splitter "" _ _ _ _ Hw) as (a & b & E).
    pose proof (chars_units text) as Hu. cbn [app] in E. rewrite E in Hu.
    apply Forall_app in Hu as [_ Hu]. now apply Forall_app in Hu as [Hu _]. }
  split; [|exact Hunits].
  destruct text as [|c text]; [contradiction|]. clear Hink.
  rewrite split_text_short; rewrite (pick_separator_spaceless _ Hs Hdot); cbn [fst];
    unfold TextSplitter.split_text_with_regex; cbn [PyStr.truthy]; rewrite filter_chars.
  2: { eapply Forall_impl; [apply chars_units|]. intros p Hp. simpl. simpl in Hp. lia. }
  unfold TextSplitter.merge_splits. rewrite merge_loop_windows. cbn [app].
  apply omap_total.
  pose proof (windows_nonempty splitter "" (PyStr.chars (String c text)) [] 0) as Hne.
  rewrite Forall_forall in Hne, Hunits |- *. intros w Hw.
  specialize (Hne ltac:(discriminate) w Hw). specialize (Hunits w Hw).
  destruct (windows_runs splitter "" _ _ _ _ Hw) as (a & b & E). cbn [app] in E.
  assert (Hsw : PyStr.spaceless (PyStr.join "" w) = true).
  { rewrite <- (join_chars (String c text)), E, !join_empty_app, !spaceless_app in Hs.
    apply andb_true_iff in Hs as [_ Hs]. now apply andb_true_iff in Hs as [Hs _]. }
  unfold TextSplitter.join_docs. rewrite (strip_spaceless _ Hsw).
  pose proof (len_join_units w Hunits) as Hlen.
  destruct (PyStr.join "" w); [|reflexivity].
  destruct w; [contradiction|discriminate].
Qed.

(** C4, as the code has it.  When the content of a document holds no
    whitespace character and no full stop, so that the chunker has only
    the cut between characters left, every two chunks of its output that
    follow each other overlap by exactly 150 characters: the last 150
    characters of the first are the first 150 characters of the second,
    which goes on with at least one character more.  This holds for the
    last pair too. *)
Theorem chunks_overlap_on_character_cuts (text : string) (i : nat) (A B : string) :
  PyStr.spaceless text = true ->
  PyStr.contains "." text = false ->
  TextSplitter.split_text splitter text !! i = Some A ->
  TextSplitter.split_text splitter text !! S i = Some B ->
  PyStr.drop (PyStr.len A - 150) A = PyStr.take 150 B /\
  150 < PyStr.len B.
Proof.
  intros Hs Hdot HA HB.
  assert (Hink : text <> "").
  { intros ->. change (TextSplitter.split_text splitter "") with (@nil string) in HA.
    discriminate. }
  destruct (split_text_spaceless text Hink Hs Hdot) as [E Hunits]. rewrite E in HA, HB.
  apply list_lookup_fmap_Some in HA as (w1 & -> & H1).
  apply list_lookup_fmap_Some in HB as (w2 & -> & H2).
  destruct (windows_overlap splitter "" (PyStr.chars text) [] 0 eq_refl i w1 w2 H1 H2)
    as (kept & fresh & [gone ->] & -> & Hf & _ & Hex).
  specialize (Hex eq_refl ltac:(simpl; lia) (chars_units text)).
  change (TextSplitter.chunk_overlap splitter) with 150 in Hex.
  rewrite Forall_forall in Hunits.
  pose proof (Hunits _ (list_elem_of_lookup_2 _ _ _ H2)) as Hu2.
  apply Forall_app in Hu2 as [_ Hu2]. apply len_join_units in Hu2.
  rewrite !join_empty_app, !len_app, Hex. split.
  - replace (PyStr.len (PyStr.join "" gone) + 150 - 150)
      with (PyStr.len (PyStr.join "" gone)) by lia.
    rewrite drop_app, <- Hex. now rewrite take_app_exact.
  - destruct fresh; [contradiction|]. cbn [length] in Hu2. lia.
Qed.

(** ** Further concrete inputs *)

(** The first question to the demonstration. *)
Lemma ask_question_answer_witness :
  exists response w',
    @ask_question Demo.backend (Some Demo.service) (mkQuestionRequest "what?")
      Demo.world = (Ok response, w') /\
    length (sources response) = 1.
Proof.
  eexists _, _. split; [reflexivity|].
  apply (@ask_question_answer Demo.backend Demo.service (mkQuestionRequest "what?")
           Demo.world _ _ eq_refl).
Defined.

(** A question of one space. *)
Lemma ask_question_failure_witness :
  exists e w',
    @ask_question Demo.backend (Some Demo.service) (mkQuestionRequest " ") Demo.world
      = (Raise e, w') /\
    vector_store w' = vector_store Demo.world.
Proof.
  eexists _, _. split; [reflexivity|].
  apply (@ask_question_failure Demo.backend (Some Demo.service) (mkQuestionRequest " ")
           Demo.world _ _ eq_refl).
Defined.

(** A document without metadata. *)
Lemma source_defaults_witness :
  source (source_info (mkDocument "text" ∅)) = "unknown".
Proof.
  apply (proj1 (source_defaults (mkDocument "text" ∅))). reflexivity.
Defined.

(** A content of 201 characters has a preview of 203. *)
Lemma excerpt_bounds_witness :
  PyStr.len (Demo.repeat_char "a" 201) < PyStr.len (excerpt (Demo.repeat_char "a" 201)).
Proof.
  apply (proj2 (proj2 (proj2 (excerpt_bounds (Demo.repeat_char "a" 201)))));
    vm_compute; lia.
Defined.

(** A Word file of the old format. *)
Lemma upload_suffixes_witness :
  @select_loader "old.doc" = Raise (ValueError "unsupported file format") /\
  @process_uploaded_file Demo.backend "bytes" "old.doc" =
  @extract_text_from_docx Demo.backend "bytes".
Proof.
  apply (proj1 (proj2 (@upload_suffixes Demo.backend "old.doc" "bytes"))). reflexivity.
Defined.

(** The demonstration loads the document of the chunker, and drops it. *)
Lemma chunker_import_witness :
  ([] : list Document) = [] /\
  exists loaded, @docx_loader Demo.backend chunker_path = Ok loaded.
Proof.
  apply (proj1 (@chunker_import Demo.backend) []). reflexivity.
Defined.

(** Two questions to the demonstration leave its index alone. *)
Lemma index_append_only_witness :
  vector_store
    (@serve_all Demo.backend (Some Demo.service)
       [AskRequest (mkQuestionRequest "one?"); AskRequest (mkQuestionRequest "two?")]
       Demo.world) = vector_store Demo.world.
Proof.
  apply (proj2 (proj2 (@index_append_only Demo.backend (Some Demo.service)
           [AskRequest (mkQuestionRequest "one?"); AskRequest (mkQuestionRequest "two?")]
           Demo.world))).
  repeat constructor; eauto.
Defined.

(** The casing of [exit] does not matter, and the line after it is not
    read. *)
Lemma main_loop_stops_at_exit_witness :
  @main_loop Demo.backend Demo.service ["what?"; "Exit"; "never read"] Demo.world =
  @main_loop Demo.backend Demo.service ["what?"; "Exit"] Demo.world.
Proof.
  apply (@main_loop_stops_at_exit Demo.backend Demo.service ["what?"] ["never read"]
           "Exit" Demo.world).
  - repeat constructor. vm_compute. discriminate.
  - reflexivity.
Defined.

(** One question, then [exit]. *)
Lemma main_loop_ends_at_exit_witness :
  exists before x after,
    ["what?"; "exit"] = before ++ x :: after /\
    PyStr.lower x = "exit" /\
    Forall (fun q => PyStr.lower q <> "exit") before /\
    vector_store (snd (@main_loop Demo.backend Demo.service ["what?"; "exit"] Demo.world))
    = vector_store Demo.world /\
    (exists contexts,
       length contexts = length before /\
       calls (snd (@main_loop Demo.backend Demo.service ["what?"; "exit"] Demo.world)) =
       calls Demo.world ++
         flat_map (fun qc => [EmbedQuery (fst qc); ChainInvoke (snd qc) (fst qc)])
           (combine before contexts)).
Proof.
  apply (@main_loop_ends_at_exit Demo.backend Demo.service ["what?"; "exit"]
           (fst (fst (@main_loop Demo.backend Demo.service ["what?"; "exit"] Demo.world)))
           Demo.world
           (snd (@main_loop Demo.backend Demo.service ["what?"; "exit"] Demo.world))).
  reflexivity.
Defined.

(** The upload of a short text to the demonstration. *)
Lemma add_document_chunks_fit_witness :
  exists new,
    vector_store (snd (@add_document Demo.backend Demo.service "  hello world.  " ∅
                         Demo.world)) = vector_store Demo.world ++ new /\
    length new = 1 /\
    Forall (fun x => page_content (snd x) <> "" /\
                     PyStr.strip (page_content (snd x)) = page_content (snd x) /\
                     PyStr.len (page_content (snd x)) <= 810) new.
Proof.
  apply (@add_document_chunks_fit Demo.backend Demo.service "  hello world.  " ∅
           Demo.world _ 1 eq_refl).
  reflexivity.
Defined.

Lemma add_document_short_text_witness :
  @add_document Demo.backend Demo.service "  hello world.  " ∅ Demo.world =
  (Ok 1,
   @mkWorld Demo.backend
     (vector_store Demo.world ++ [(12, mkDocument "hello world." ∅)])
     (calls Demo.world ++ [EmbedDocuments ["hello world."]])).
Proof.
  apply (@add_document_short_text Demo.backend Demo.service "  hello world.  " ∅
           Demo.world 12).
  - reflexivity.
  - vm_compute. lia.
  - vm_compute. discriminate.
  - reflexivity.
Defined.

Lemma add_document_chunks_from_text_witness :
  exists new,
    vector_store (snd (@add_document Demo.backend Demo.service "  hello world.  " ∅
                         Demo.world)) = vector_store Demo.world ++ new /\
    Forall (fun x => PyStr.contains (page_content (snd x)) "  hello world.  " = true) new.
Proof.
  apply (@add_document_chunks_from_text Demo.backend Demo.service "  hello world.  " ∅
           Demo.world _ 1).
  reflexivity.
Defined.

(** The fresh index of the demonstration holds one entry, the retriever
    asks for four. *)
Lemma small_index_cited_whole_witness :
  exists response w',
    @ask_question Demo.backend (Some Demo.service) (mkQuestionRequest "what?")
      Demo.world = (Ok response, w') /\
    sources response ≡ₚ map (fun x => source_info (snd x)) (vector_store Demo.world).
Proof.
  eexists _, _. split; [reflexivity|].
  eapply (@small_index_cited_whole Demo.backend Demo.service (mkQuestionRequest "what?")
            Demo.world).
  - vm_compute. lia.
  - reflexivity.
Defined.

(** The file [a.txt] is uploaded to the demonstration, then a question is
    asked. *)
Lemma upload_then_ask_cites_file_witness :
  exists response,
    fst (@ask_question Demo.backend (Some Demo.service) (mkQuestionRequest "what?")
           (snd (@upload_files Demo.backend (Some Demo.service)
                   [mkUploadFile "a.txt" "hello world. bye"] Demo.world)))
    = Ok response /\
    mkSource "a.txt" "hello world. bye" ∈ sources response.
Proof.
  eexists. split; [reflexivity|].
  eapply (@upload_then_ask_cites_file Demo.backend Demo.service Demo.world _
            (mkUploadFile "a.txt" "hello world. bye") "hello world. bye" 16
            (mkQuestionRequest "what?")).
  - reflexivity.
  - reflexivity.
  - reflexivity.
  - reflexivity.
  - vm_compute. lia.
  - vm_compute. discriminate.
  - reflexivity.
  - reflexivity.
Defined.

(** The demonstration builds its chain, so it has a service. *)
Lemma without_service_witness :
  Some Demo.service <> None.
Proof.
  intros H.
  apply (proj1 (@without_service Demo.backend Demo.world) (Some Demo.service) eq_refl) in H.
  discriminate H.
Defined.

(** The upload of a text file and of a program to the demonstration. *)
Lemma upload_loop_index_witness :
  exists names new lists w',
    @upload_loop Demo.backend Demo.service
      [mkUploadFile "a.txt" "hello world. bye"; mkUploadFile "virus.exe" "MZ"]
      (mkUploadLists [] []) Demo.world = (Ok lists, w') /\
    processed_files lists = [] ++ names /\
    vector_store w' = vector_store Demo.world ++ new.
Proof.
  destruct (@upload_loop_index Demo.backend Demo.service
              [mkUploadFile "a.txt" "hello world. bye"; mkUploadFile "virus.exe" "MZ"]
              (mkUploadLists [] []) Demo.world)
    as (names & new & lists & w' & H1 & H2 & H3 & _).
  exists names, new, lists, w'. auto.
Defined.

(** A word of 1000 characters is cut into two chunks, of 810 and of 340
    characters. *)
Lemma chunks_overlap_on_character_cuts_witness :
  TextSplitter.split_text splitter Demo.one_word !! 0 =
    Some (Demo.repeat_char "a" 500 +:+ Demo.repeat_char "b" 310) /\
  TextSplitter.split_text splitter Demo.one_word !! 1 =
    Some (Demo.repeat_char "b" 340) /\
  PyStr.drop
    (PyStr.len (Demo.repeat_char "a" 500 +:+ Demo.repeat_char "b" 310) - 150)
    (Demo.repeat_char "a" 500 +:+ Demo.repeat_char "b" 310)
  = PyStr.take 150 (Demo.repeat_char "b" 340) /\
  150 < PyStr.len (Demo.repeat_char "b" 340).
Proof.
  assert (H0 : TextSplitter.split_text splitter Demo.one_word !! 0 =
               Some (Demo.repeat_char "a" 500 +:+ Demo.repeat_char "b" 310))
    by (vm_compute; reflexivity).
  assert (H1 : TextSplitter.split_text splitter Demo.one_word !! 1 =
               Some (Demo.repeat_char "b" 340))
    by (vm_compute; reflexivity).
  split; [exact H0|]. split; [exact H1|].
  apply (chunks_overlap_on_character_cuts Demo.one_word 0 _ _);
    [vm_compute; reflexivity|vm_compute; reflexivity|exact H0|exact H1].
Defined.

(** Whitespace inside a text that is cut between characters: the chunks
    are stripped after the cut, and the first two of them share
    nothing. *)
Example tabs_are_stripped_from_chunks :
  PyStr.contains "." Demo.tabbed_words = false /\
  PyStr.contains " " Demo.tabbed_words = false /\
  PyStr.contains nl Demo.tabbed_words = false /\
  TextSplitter.split_text splitter Demo.tabbed_words =
    [Demo.repeat_char "a" 600; Demo.repeat_char "b" 470; Demo.repeat_char "b" 380] /\
  PyStr.drop (600 - 150) (Demo.repeat_char "a" 600)
  <> PyStr.take 150 (Demo.repeat_char "b" 470).
Proof.
  repeat split; try (vm_compute; reflexivity). vm_compute. discriminate.
Qed.

(** A file whose name has a directory part cannot be saved by the
    demonstration: it is reported, nothing is indexed, and as the only
    file of an upload it ends the request with an HTTP error. *)
Example upload_unsaved_file_is_an_error :
  PathLib.suffix "sub/a.txt" = ".txt" /\
  @upload_files Demo.backend (Some Demo.service)
    [mkUploadFile "sub/a.txt" "hello world. bye"] Demo.world =
  (Raise (HTTPException 500
     "Error processing files: 400: No files were processed successfully. Errors: sub/a.txt: [Errno 2] No such file or directory"),
   Demo.world).
Proof. split; reflexivity. Qed.
